(** * Banking API tester (streamlit_app.py): request composition, dispatch
      and the manual route tester.

    The development embeds the parts of [streamlit_app.py] that build
    request parameters, call the backend through [requests] and decode the
    free-form parameter text of the "Test des Routes" page, then the head
    of the page, the fraud prediction and the formatting of amounts.

    Python objects are modelled by the type [json] (Python's [None], [bool],
    [int], [float], [str], [list] and [dict] with string keys); a Python
    [str] is a Rocq [string] holding its UTF-8 encoding; a Python [float] is
    a primitive binary64 float; a [dict] is an association list in insertion
    order.  Calls into Streamlit and into [requests] are recorded in a log of
    events; exceptions are explicit results. *)

From Stdlib Require Import ZArith Bool List String Ascii Lia DecimalString.
From Stdlib Require Import Floats.PrimFloat Floats.SpecFloat Floats.FloatOps.
Import ListNotations.
Open Scope string_scope.
Open Scope Z_scope.

Set Warnings "-register-all".

(* ================================================================== *)
(** ** Python values *)

Inductive json : Type :=
| JNull
| JBool (b : bool)
| JInt (n : Z)
| JFloat (x : float)
| JStr (s : string)
| JList (items : list json)
| JDict (items : list (string * json)).

(** A Python [dict] with [str] keys, in insertion order. *)
Definition dict (V : Type) : Type := list (string * V).

Fixpoint dict_get {V : Type} (k : string) (d : dict V) : option V :=
  match d with
  | [] => None
  | (k', v) :: d' => if String.eqb k k' then Some v else dict_get k d'
  end.

(** [d[k] = v]: an existing key keeps its position, a new key goes last. *)
Fixpoint dict_set {V : Type} (k : string) (v : V) (d : dict V) : dict V :=
  match d with
  | [] => [(k, v)]
  | (k', v') :: d' =>
      if String.eqb k k' then (k', v) :: d' else (k', v') :: dict_set k v d'
  end.

Definition dict_keys {V : Type} (d : dict V) : list string := map fst d.

(** [x > 0] for a Python float [x] and the int literal [0]. *)
Definition gt0 (x : float) : bool := PrimFloat.ltb 0%float x.

(** Truth value of an object, as tested by [if result:]. *)
Definition truthy (v : json) : bool :=
  match v with
  | JNull => false
  | JBool b => b
  | JInt n => negb (n =? 0)
  | JFloat x => negb (PrimFloat.eqb x 0%float)
  | JStr s => negb (String.eqb s "")
  | JList items => match items with [] => false | _ => true end
  | JDict items => match items with [] => false | _ => true end
  end.

Definition is_dict (v : json) : bool :=
  match v with JDict _ => true | _ => false end.

(* ================================================================== *)
(** ** Filter composition *)

(** Page "Transactions", lines 246-264: the query parameters [params] built
    from the widgets [page], [limit], [selected_type], [fraud_filter],
    [min_amount] and [max_amount]. *)
Definition transactions_params (page limit : Z) (selected_type fraud_filter : string)
    (min_amount max_amount : float) : dict json :=
  let params := [("page", JInt page); ("limit", JInt limit)] in
  let params :=
    if negb (String.eqb selected_type "Tous")
    then dict_set "type" (JStr selected_type) params else params in
  let params :=
    if String.eqb fraud_filter "Frauduleuses"
    then dict_set "isFraud" (JInt 1) params
    else if String.eqb fraud_filter "Non frauduleuses"
    then dict_set "isFraud" (JInt 0) params
    else params in
  let params :=
    if gt0 min_amount then dict_set "min_amount" (JFloat min_amount) params
    else params in
  let params :=
    if gt0 max_amount then dict_set "max_amount" (JFloat max_amount) params
    else params in
  params.

(** Page "Recherche Avancée", lines 694-708: the request body [search_data]
    built from [search_type], [fraud_search], [amount_min_search] and
    [amount_max_search]. *)
Definition search_data (search_type fraud_search : string)
    (amount_min_search amount_max_search : float) : dict json :=
  let search_data := [] in
  let search_data :=
    if negb (String.eqb search_type "Tous")
    then dict_set "type" (JStr search_type) search_data else search_data in
  let search_data :=
    if String.eqb fraud_search "Oui"
    then dict_set "isFraud" (JInt 1) search_data
    else if String.eqb fraud_search "Non"
    then dict_set "isFraud" (JInt 0) search_data
    else search_data in
  let search_data :=
    if gt0 amount_min_search || gt0 amount_max_search
    then dict_set "amount_range"
           (JList [ if gt0 amount_min_search then JFloat amount_min_search
                    else JInt 0;
                    if gt0 amount_max_search then JFloat amount_max_search
                    else JInt 999999999 ])
           search_data
    else search_data in
  search_data.

(** The options of the two fraud select boxes (lines 238 and 680); the
    first entry means "no filter". *)
Definition fraud_filter_options : list string :=
  ["Toutes"; "Frauduleuses"; "Non frauduleuses"].

Definition fraud_search_options : list string := ["Toutes"; "Oui"; "Non"].

(* ================================================================== *)
(** ** Route registry *)

(** Page "Test des Routes", lines 754-794. *)
Definition route_categories : list string :=
  ["Transactions"; "Statistiques"; "Fraude"; "Clients"; "Système"].

Definition route (method endpoint : string) : dict string :=
  [("method", method); ("endpoint", endpoint)].

Definition routes (route_category : string) : dict (dict string) :=
  if String.eqb route_category "Transactions" then
    [ ("GET /transactions", route "GET" "transactions");
      ("GET /transactions/{id}", route "GET" "transactions/0");
      ("GET /transactions/types", route "GET" "transactions/types");
      ("GET /transactions/recent", route "GET" "transactions/recent");
      ("POST /transactions/search", route "POST" "transactions/search") ]
  else if String.eqb route_category "Statistiques" then
    [ ("GET /stats/overview", route "GET" "stats/overview");
      ("GET /stats/amount-distribution", route "GET" "stats/amount-distribution");
      ("GET /stats/by-type", route "GET" "stats/by-type");
      ("GET /stats/daily", route "GET" "stats/daily") ]
  else if String.eqb route_category "Fraude" then
    [ ("GET /fraud/summary", route "GET" "fraud/summary");
      ("GET /fraud/by-type", route "GET" "fraud/by-type");
      ("POST /fraud/predict", route "POST" "fraud/predict") ]
  else if String.eqb route_category "Clients" then
    [ ("GET /customers", route "GET" "customers");
      ("GET /customers/{id}", route "GET" "customers/C1231006815");
      ("GET /customers/top", route "GET" "customers/top") ]
  else
    [ ("GET /system/health", route "GET" "system/health");
      ("GET /system/metadata", route "GET" "system/metadata") ].

(** A well-formed route descriptor: a non-empty endpoint and a method that
    is GET or POST. *)
Definition route_ok (route_info : dict string) : bool :=
  match dict_get "method" route_info, dict_get "endpoint" route_info with
  | Some m, Some e =>
      (String.eqb m "GET" || String.eqb m "POST") && negb (String.eqb e "")
  | _, _ => false
  end.

(* ================================================================== *)
(** ** The JSON decoder ([json.loads])

    A model of the decoder of Python's [json] module on a [str] document:
    white space is space, tab, line feed and carriage return; numbers
    without fraction and exponent are [int], the others are [float]
    (correctly rounded); the constants [NaN], [Infinity] and [-Infinity] are
    accepted; strings are strict (no raw control character); a repeated key
    of an object keeps its first position and its last value.  The
    interpreter's recursion limit is not modelled. *)

Module Decoder.

Local Open Scope char_scope.
Local Open Scope Z_scope.
Local Open Scope list_scope.

Definition is_ws (c : ascii) : bool :=
  match c with
  | " " | "009" | "010" | "013" => true
  | _ => false
  end.

Fixpoint skip_ws (cs : list ascii) : list ascii :=
  match cs with
  | c :: rest => if is_ws c then skip_ws rest else cs
  | [] => []
  end.

(** The text after the character [x], when [cs] starts with it. *)
Definition head_is (x : ascii) (cs : list ascii) : option (list ascii) :=
  match cs with
  | c :: rest => if Ascii.eqb c x then Some rest else None
  | [] => None
  end.

Definition code (c : ascii) : Z := Z.of_N (N_of_ascii c).

Definition digit_of (c : ascii) : option Z :=
  let n := code c in
  if (48 <=? n) && (n <=? 57) then Some (n - 48) else None.

Definition hex_of (c : ascii) : option Z :=
  let n := code c in
  if (48 <=? n) && (n <=? 57) then Some (n - 48)
  else if (65 <=? n) && (n <=? 70) then Some (n - 55)
  else if (97 <=? n) && (n <=? 102) then Some (n - 87)
  else None.

Definition hex4 (a b c d : ascii) : option Z :=
  match hex_of a, hex_of b, hex_of c, hex_of d with
  | Some x, Some y, Some z, Some w => Some (((x * 16 + y) * 16 + z) * 16 + w)
  | _, _, _, _ => None
  end.

Definition byte (n : Z) : ascii := ascii_of_N (Z.to_N n).

(** UTF-8 encoding of a code point (a lone surrogate is encoded like any
    other three-byte code point). *)
Definition utf8 (cp : Z) : list ascii :=
  if cp <? 128 then [byte cp]
  else if cp <? 2048 then [byte (192 + cp / 64); byte (128 + cp mod 64)]
  else if cp <? 65536 then
    [byte (224 + cp / 4096); byte (128 + (cp / 64) mod 64);
     byte (128 + cp mod 64)]
  else
    [byte (240 + cp / 262144); byte (128 + (cp / 4096) mod 64);
     byte (128 + (cp / 64) mod 64); byte (128 + cp mod 64)].

Definition is_high_surrogate (u : Z) : bool := (55296 <=? u) && (u <=? 56319).
Definition is_low_surrogate (u : Z) : bool := (56320 <=? u) && (u <=? 57343).

Definition join_surrogates (hi lo : Z) : Z :=
  65536 + Z.lor (Z.shiftl (hi - 55296) 10) (lo - 56320).

Definition prepend (pre : list ascii) (r : option (list ascii * list ascii))
  : option (list ascii * list ascii) :=
  match r with
  | Some (content, rest) => Some (pre ++ content, rest)
  | None => None
  end.

(** The simple escapes ([034] is the double quote); [u] is handled apart. *)
Definition backslash (esc : ascii) : option ascii :=
  match esc with
  | "034" => Some "034"
  | "\" => Some "\"
  | "/" => Some "/"
  | "b" => Some "008"
  | "f" => Some "012"
  | "n" => Some "010"
  | "r" => Some "013"
  | "t" => Some "009"
  | _ => None
  end.

(** [scanstring cs]: the content of a string literal whose opening quote has
    been read, and the text after its closing quote.  A high surrogate
    escape followed by a low surrogate escape is one code point. *)
Fixpoint scanstring (cs : list ascii) : option (list ascii * list ascii) :=
  match cs with
  | [] => None
  | c :: rest =>
      if Ascii.eqb c "034" then Some ([], rest)
      else if Ascii.eqb c "\" then
        match rest with
        | [] => None
        | esc :: rest1 =>
            if Ascii.eqb esc "u" then
              match rest1 with
              | h1 :: h2 :: h3 :: h4 :: rest2 =>
                  match hex4 h1 h2 h3 h4 with
                  | None => None
                  | Some uni =>
                      if is_high_surrogate uni then
                        match rest2 with
                        | b :: u :: g1 :: g2 :: g3 :: g4 :: rest3 =>
                            if Ascii.eqb b "\" && Ascii.eqb u "u" then
                              match hex4 g1 g2 g3 g4 with
                              | None => None
                              | Some uni2 =>
                                  if is_low_surrogate uni2
                                  then prepend (utf8 (join_surrogates uni uni2))
                                         (scanstring rest3)
                                  else prepend (utf8 uni) (scanstring rest2)
                              end
                            else prepend (utf8 uni) (scanstring rest2)
                        | _ => prepend (utf8 uni) (scanstring rest2)
                        end
                      else prepend (utf8 uni) (scanstring rest2)
                  end
              | _ => None
              end
            else
              match backslash esc with
              | Some ch => prepend [ch] (scanstring rest1)
              | None => None
              end
        end
      else if code c <? 32 then None
      else prepend [c] (scanstring rest)
  end.

(** A maximal run of decimal digits. *)
Fixpoint scan_digits (cs : list ascii) : list Z * list ascii :=
  match cs with
  | c :: rest =>
      match digit_of c with
      | Some d => let '(ds, rest') := scan_digits rest in (d :: ds, rest')
      | None => ([], cs)
      end
  | [] => ([], [])
  end.

Definition Z_of_digits (ds : list Z) : Z :=
  fold_left (fun acc d => acc * 10 + d) ds 0.

(** [float(text)] for a decimal literal of value [(-1)^neg * digits * 10^e10]:
    the nearest binary64, ties to even.  A negative exponent divides with
    enough extra bits and a sticky bit before the final rounding. *)
Definition float_of_decimal (neg : bool) (digits e10 : Z) : float :=
  let sign := fun m : Z => if neg then - m else m in
  if digits =? 0 then (if neg then (-0)%float else 0%float)
  else if 0 <=? e10 then
    SF2Prim (binary_normalize prec emax (sign (digits * 10 ^ e10)) 0 neg)
  else
    let den := 10 ^ (- e10) in
    let k := Z.max 0 (Z.log2 den + 66 - Z.log2 digits) in
    let num := digits * 2 ^ k in
    let q := num / den in
    let q' := if num mod den =? 0 then q else Z.lor q 1 in
    SF2Prim (binary_normalize prec emax (sign q') (- k) neg).

(** The integer part of a number: [0] alone, or a run of digits that starts
    with a non-zero digit. *)
Definition scan_int (cs : list ascii) : option (list Z * list ascii) :=
  match cs with
  | [] => None
  | c :: r =>
      match digit_of c with
      | None => None
      | Some d =>
          if d =? 0 then Some ([0], r)
          else let '(ds, r') := scan_digits r in Some (d :: ds, r')
      end
  end.

(** An optional fraction: a dot and at least one digit. *)
Definition scan_frac (cs : list ascii) : option (list Z) * list ascii :=
  match head_is "." cs with
  | Some r =>
      match scan_digits r with
      | ([], _) => (None, cs)
      | (ds, r') => (Some ds, r')
      end
  | None => (None, cs)
  end.

(** An optional exponent: [e] or [E], an optional sign, at least one
    digit. *)
Definition scan_exp (cs : list ascii) : option Z * list ascii :=
  let after_e :=
    match head_is "e" cs with
    | Some r => Some r
    | None => head_is "E" cs
    end in
  match after_e with
  | None => (None, cs)
  | Some r =>
      let '(eneg, r1) :=
        match head_is "-" r with
        | Some r1 => (true, r1)
        | None =>
            match head_is "+" r with
            | Some r1 => (false, r1)
            | None => (false, r)
            end
        end in
      match scan_digits r1 with
      | ([], _) => (None, cs)
      | (ds, r2) =>
          (Some (if eneg then - Z_of_digits ds else Z_of_digits ds), r2)
      end
  end.

(** The number at the head of [cs]: an optional minus sign, an integer
    part, an optional fraction and an optional exponent.  A fraction or an
    exponent that is not complete is left unread.  Without fraction and
    exponent the number is an [int], otherwise a [float]. *)
Definition scan_number (cs : list ascii) : option (json * list ascii) :=
  let '(neg, cs1) :=
    match head_is "-" cs with
    | Some r => (true, r)
    | None => (false, cs)
    end in
  match scan_int cs1 with
  | None => None
  | Some (int_digits, cs2) =>
      let '(frac, cs3) := scan_frac cs2 in
      let '(exp, cs4) := scan_exp cs3 in
      match frac, exp with
      | None, None =>
          let n := Z_of_digits int_digits in
          Some (JInt (if neg then - n else n), cs4)
      | _, _ =>
          let fd := match frac with Some ds => ds | None => [] end in
          let e := match exp with Some e => e | None => 0 end in
          Some (JFloat (float_of_decimal neg (Z_of_digits (int_digits ++ fd))
                          (e - Z.of_nat (List.length fd))), cs4)
      end
  end.

Fixpoint strip_prefix (p cs : list ascii) : option (list ascii) :=
  match p, cs with
  | [] , _ => Some cs
  | a :: p', c :: cs' => if Ascii.eqb a c then strip_prefix p' cs' else None
  | _ :: _, [] => None
  end.

Definition literal (word : string) (v : json) (cs : list ascii)
  : option (json * list ascii) :=
  match strip_prefix (list_ascii_of_string word) cs with
  | Some rest => Some (v, rest)
  | None => None
  end.

Definition or_else {A : Type} (r : option A) (other : option A) : option A :=
  match r with
  | Some a => Some a
  | None => other
  end.

(** A value that is neither a string, an object nor an array: the three
    JSON constants, a number, or one of the three float constants. *)
Definition scan_scalar (cs : list ascii) : option (json * list ascii) :=
  or_else (literal "null"%string JNull cs)
  (or_else (literal "true"%string (JBool true) cs)
  (or_else (literal "false"%string (JBool false) cs)
  (or_else (scan_number cs)
  (or_else (literal "NaN"%string (JFloat nan) cs)
  (or_else (literal "Infinity"%string (JFloat infinity) cs)
           (literal "-Infinity"%string (JFloat neg_infinity) cs)))))).

Inductive parse_result : Type :=
| Parsed (v : json) (rest : list ascii)
| SyntaxError
| OutOfFuel.

Definition of_option (r : option (json * list ascii)) : parse_result :=
  match r with
  | Some (v, rest) => Parsed v rest
  | None => SyntaxError
  end.

(** [scan_once] reads one value at the head of [cs]; [scan_array] and
    [scan_object] read the elements after an opening bracket or brace that
    is not immediately closed. *)
Fixpoint scan_once (fuel : nat) (cs : list ascii) : parse_result :=
  match fuel with
  | O => OutOfFuel
  | S fuel' =>
      match head_is "034" cs with
      | Some rest =>
          match scanstring rest with
          | Some (s, rest') => Parsed (JStr (string_of_list_ascii s)) rest'
          | None => SyntaxError
          end
      | None =>
      match head_is "{" cs with
      | Some rest =>
          match head_is "}" (skip_ws rest) with
          | Some rest' => Parsed (JDict []) rest'
          | None => scan_object fuel' [] (skip_ws rest)
          end
      | None =>
      match head_is "[" cs with
      | Some rest =>
          match head_is "]" (skip_ws rest) with
          | Some rest' => Parsed (JList []) rest'
          | None => scan_array fuel' [] (skip_ws rest)
          end
      | None => of_option (scan_scalar cs)
      end end end
  end

with scan_array (fuel : nat) (values : list json) (cs : list ascii)
  : parse_result :=
  match fuel with
  | O => OutOfFuel
  | S fuel' =>
      match scan_once fuel' cs with
      | Parsed v rest =>
          match head_is "]" (skip_ws rest) with
          | Some rest' => Parsed (JList (values ++ [v])) rest'
          | None =>
              match head_is "," (skip_ws rest) with
              | Some rest' => scan_array fuel' (values ++ [v]) (skip_ws rest')
              | None => SyntaxError
              end
          end
      | SyntaxError => SyntaxError
      | OutOfFuel => OutOfFuel
      end
  end

with scan_object (fuel : nat) (pairs : dict json) (cs : list ascii)
  : parse_result :=
  match fuel with
  | O => OutOfFuel
  | S fuel' =>
      match head_is "034" cs with
      | None => SyntaxError
      | Some rest =>
          match scanstring rest with
          | None => SyntaxError
          | Some (k, rest1) =>
              let key := string_of_list_ascii k in
              match head_is ":" (skip_ws rest1) with
              | None => SyntaxError
              | Some rest2 =>
                  match scan_once fuel' (skip_ws rest2) with
                  | Parsed v rest3 =>
                      match head_is "}" (skip_ws rest3) with
                      | Some rest4 => Parsed (JDict (dict_set key v pairs)) rest4
                      | None =>
                          match head_is "," (skip_ws rest3) with
                          | Some rest4 =>
                              scan_object fuel' (dict_set key v pairs)
                                (skip_ws rest4)
                          | None => SyntaxError
                          end
                      end
                  | SyntaxError => SyntaxError
                  | OutOfFuel => OutOfFuel
                  end
              end
          end
      end
  end.

(** Enough fuel for a document of this length (see [scan_once_fuel]). *)
Definition fuel_for (cs : list ascii) : nat := (2 * List.length cs + 2)%nat.

(** [json.loads(s)]: [None] stands for [json.JSONDecodeError]. *)
Definition loads (s : string) : option json :=
  let cs := skip_ws (list_ascii_of_string s) in
  match scan_once (fuel_for cs) cs with
  | Parsed v rest =>
      match skip_ws rest with
      | [] => Some v
      | _ => None
      end
  | _ => None
  end.

End Decoder.

Definition json_loads : string -> option json := Decoder.loads.

(* ================================================================== *)
(** ** Responses, exceptions and effects *)

(** What the code reads of a [requests.Response]. *)
Record Response : Type := {
  status_code : Z;
  reason : string;
  url : string;
  text : string
}.

(** The exceptions that can reach the handlers of the file.  The class tests
    below follow the class hierarchy: [requests.exceptions.JSONDecodeError]
    derives from both [RequestException] and [json.JSONDecodeError];
    [KeyboardInterrupt] is a [BaseException] that is not an [Exception]. *)
Inductive exn : Type :=
| HTTPError (msg : string) (response : Response)
| ConnectionError (msg : string)
| Timeout (msg : string)
| ContentDecodingError (msg : string)
| RequestsJSONDecodeError (doc : string)
| JSONDecodeError (doc : string)
| KeyError (key : string)
| TypeError (msg : string)
| KeyboardInterrupt.

Definition is_RequestException (e : exn) : bool :=
  match e with
  | HTTPError _ _ | ConnectionError _ | Timeout _ | ContentDecodingError _
  | RequestsJSONDecodeError _ => true
  | _ => false
  end.

Definition is_JSONDecodeError (e : exn) : bool :=
  match e with
  | JSONDecodeError _ | RequestsJSONDecodeError _ => true
  | _ => false
  end.

Definition is_Exception (e : exn) : bool :=
  match e with
  | KeyboardInterrupt => false
  | _ => true
  end.

Definition is_BaseException (e : exn) : bool := true.

(** The text of a message: a literal, or an f-string made of a literal
    followed by [str(e)]. *)
Inductive message : Type :=
| Text (s : string)
| TextExn (prefix : string) (e : exn).

(** The calls that leave the program: to [requests] and to Streamlit.
    [StCode v] stands for [st.code(json.dumps(v, indent=2), language="json")]. *)
Inductive event : Type :=
| RequestsGet (url : string) (params : json) (timeout : option Z)
| RequestsPost (url : string) (json_body : json)
| StError (msg : message)
| StSuccess (msg : message)
| StJson (v : json)
| StCode (v : json).

Definition is_request (ev : event) : bool :=
  match ev with
  | RequestsGet _ _ _ | RequestsPost _ _ => true
  | _ => false
  end.

(** A computation: the events it produced, then an exception or a value. *)
Definition M (A : Type) : Type := list event * (exn + A).

Definition ret {A : Type} (a : A) : M A := ([], inr a).

Definition raise {A : Type} (e : exn) : M A := ([], inl e).

Definition emit (ev : event) : M unit := ([ev], inr tt).

Definition bind {A B : Type} (m : M A) (f : A -> M B) : M B :=
  match m with
  | (log, inl e) => (log, inl e)
  | (log, inr a) => let '(log', r) := f a in ((log ++ log')%list, r)
  end.

Notation "x <- m ;; k" := (bind m (fun x => k))
  (at level 61, m at next level, right associativity).
Notation "m ;;; k" := (bind m (fun _ => k))
  (at level 61, right associativity).

(** [try: m except C1: h1 except C2: h2 ...]: the first clause whose class
    test accepts the exception handles it. *)
Definition try_except {A : Type} (m : M A)
    (clauses : list ((exn -> bool) * (exn -> M A))) : M A :=
  match m with
  | (log, inl e) =>
      match find (fun c => fst c e) clauses with
      | Some (_, handler) => let '(log', r) := handler e in ((log ++ log')%list, r)
      | None => (log, inl e)
      end
  | (log, inr a) => (log, inr a)
  end.

Definition events {A : Type} (m : M A) : list event := fst m.
Definition outcome {A : Type} (m : M A) : exn + A := snd m.

(** [d[k]], raising [KeyError]. *)
Definition getitem {V : Type} (d : dict V) (k : string) : M V :=
  match dict_get k d with
  | Some v => ret v
  | None => raise (KeyError k)
  end.

(** [json.loads(s)] as a computation. *)
Definition json_loads_M (s : string) : M json :=
  match json_loads s with
  | Some v => ret v
  | None => raise (JSONDecodeError s)
  end.

Definition string_of_Z (n : Z) : string :=
  DecimalString.NilZero.string_of_int (Z.to_int n).

(** The message of [Response.raise_for_status]: empty when the status is
    neither a client error (4xx) nor a server error (5xx). *)
Definition http_error_msg (r : Response) : string :=
  if (400 <=? status_code r) && (status_code r <? 500) then
    string_of_Z (status_code r) ++ " Client Error: " ++ reason r
      ++ " for url: " ++ url r
  else if (500 <=? status_code r) && (status_code r <? 600) then
    string_of_Z (status_code r) ++ " Server Error: " ++ reason r
      ++ " for url: " ++ url r
  else "".

(** [Response.raise_for_status()]. *)
Definition raise_for_status (r : Response) : M unit :=
  let msg := http_error_msg r in
  if negb (String.eqb msg "") then raise (HTTPError msg r) else ret tt.

(** [Response.json()]: the body decoded, a decoding error re-raised as
    [requests.exceptions.JSONDecodeError] (a [RequestException] since
    requests 2.27). *)
Definition response_json (r : Response) : M json :=
  match json_loads (text r) with
  | Some v => ret v
  | None => raise (RequestsJSONDecodeError (text r))
  end.

(** What [requests.get] and [requests.post] answer, by their arguments: an
    exception or a response.  This is the environment of the program. *)
Record Network : Type := {
  net_get : string -> json -> option Z -> exn + Response;
  net_post : string -> json -> exn + Response
}.

(* ================================================================== *)
(** ** The functions of the file *)

Definition API_BASE_URL : string := "http://localhost:8000/api".

Section WithNetwork.

Variable net : Network.

(** [requests.get(url, params=params, timeout=timeout)] *)
Definition requests_get (url : string) (params : json) (timeout : option Z)
  : M Response :=
  (emit (RequestsGet url params timeout)) ;;;
  match net_get net url params timeout with
  | inl e => raise e
  | inr r => ret r
  end.

(** [requests.post(url, json=data)] *)
Definition requests_post (url : string) (data : json) : M Response :=
  (emit (RequestsPost url data)) ;;;
  match net_post net url data with
  | inl e => raise e
  | inr r => ret r
  end.

(** Lines 32-38. *)
Definition check_api_health : M bool :=
  try_except
    (response <- requests_get (API_BASE_URL ++ "/system/health") JNull (Some 2) ;;
     ret (status_code response =? 200))
    [(is_BaseException, fun _ => ret false)].

(** Lines 46-54. *)
Definition get_api_data (endpoint : string) (params : json) : M json :=
  try_except
    (response <- requests_get (API_BASE_URL ++ "/" ++ endpoint) params None ;;
     (raise_for_status response) ;;;
     response_json response)
    [(is_RequestException,
      fun e => (emit (StError (TextExn "❌ Erreur API: " e))) ;;; ret JNull)].

(** Lines 57-65. *)
Definition post_api_data (endpoint : string) (data : json) : M json :=
  try_except
    (response <- requests_post (API_BASE_URL ++ "/" ++ endpoint) data ;;
     (raise_for_status response) ;;;
     response_json response)
    [(is_RequestException,
      fun e => (emit (StError (TextExn "❌ Erreur API: " e))) ;;; ret JNull)].

(** Lines 818-839: the action of the button "Tester la route", for the
    selected [route_info] and the text [params_text] of the text area. *)
Definition test_route (route_info : dict string) (params_text : string) : M unit :=
  try_except
    (params <- json_loads_M params_text ;;
     method <- getitem route_info "method" ;;
     result <-
       (if String.eqb method "GET"
        then endpoint <- getitem route_info "endpoint" ;;
             get_api_data endpoint params
        else endpoint <- getitem route_info "endpoint" ;;
             post_api_data endpoint params) ;;
     if truthy result
     then (emit (StSuccess (Text "✅ Requête réussie"))) ;;;
          (emit (StJson result)) ;;;
          emit (StCode result)
     else ret tt)
    [(is_JSONDecodeError, fun _ => emit (StError (Text "❌ JSON invalide")));
     (is_Exception, fun e => emit (StError (TextExn "❌ Erreur: " e)))].

End WithNetwork.

(** A network that raises [e] on every call, and one that answers [r]. *)
Definition failing_network (e : exn) : Network :=
  {| net_get := fun _ _ _ => inl e; net_post := fun _ _ => inl e |}.

Definition answering_network (r : Response) : Network :=
  {| net_get := fun _ _ _ => inr r; net_post := fun _ _ => inr r |}.

(** [s] between double quotes (character 34). *)
Definition quoted (s : string) : string :=
  String "034"%char (s ++ String "034"%char EmptyString).

(** A response of the backend to a request for [endpoint]. *)
Definition backend_response (status : Z) (reason endpoint body : string)
  : Response :=
  {| status_code := status; reason := reason;
     url := API_BASE_URL ++ "/" ++ endpoint; text := body |}.


(** The value of a select box: the option at the selected index. *)
Definition selectbox (options : list string) (index : nat) : string :=
  nth index options "".

(** The requests among the events of a computation. *)
Definition requests_of {A : Type} (m : M A) : list event :=
  filter is_request (events m).

(** A client or server error status, for which [raise_for_status] raises. *)
Definition is_error_status (r : Response) : bool :=
  (400 <=? status_code r) && (status_code r <? 600).

(** What the body of [get_api_data] and of [post_api_data] does once the
    request [call] is made and [requests] has answered. *)
Definition api_data_after (call : event) (answer : exn + Response) : M json :=
  let report := fun e : exn =>
    ([call; StError (TextExn "❌ Erreur API: " e)], inr JNull) in
  match answer with
  | inl e => if is_RequestException e then report e else ([call], inl e)
  | inr r =>
      if is_error_status r then report (HTTPError (http_error_msg r) r)
      else
        match json_loads (text r) with
        | Some v => ([call], inr v)
        | None => report (RequestsJSONDecodeError (text r))
        end
  end.

(** What the action of the route tester shows for the result of the
    dispatcher. *)
Definition shown_result (result : json) : list event :=
  if truthy result
  then [StSuccess (Text "✅ Requête réussie"); StJson result; StCode result]
  else [].

(** What the action of the route tester does with the computation [call]
    of the dispatcher: it shows the result, or handles the exception that
    left the dispatcher. *)
Definition test_route_after (call : M json) : M unit :=
  match call with
  | (log, inr result) => ((log ++ shown_result result)%list, inr tt)
  | (log, inl e) =>
      if is_JSONDecodeError e
      then ((log ++ [StError (Text "❌ JSON invalide")])%list, inr tt)
      else if is_Exception e
      then ((log ++ [StError (TextExn "❌ Erreur: " e)])%list, inr tt)
      else (log, inl e)
  end.

(** The call of the dispatcher that the route tester makes for a method. *)
Definition dispatch (net : Network) (method endpoint : string) (params : json)
  : M json :=
  if String.eqb method "GET" then get_api_data net endpoint params
  else post_api_data net endpoint params.

(* ================================================================== *)
(** ** The head of the page *)

(** The exceptions of the script: those of the dispatcher; the
    [AttributeError] of a method call on an object that lacks the method;
    the [TypeError] of [obj[key]] on an object that is not a [dict]
    ([BadSubscript]) and of a loop over an object that cannot be iterated
    ([NotIterable]); the [TypeError] or [ValueError] of a format that the
    object does not support ([BadFormat]); the [OverflowError] of an [int]
    too large for a [float]; and the exception by which [st.stop()] ends
    the run of the script.  The texts of the last four are not modelled. *)
Inductive script_exn : Type :=
| Raised (e : exn)
| AttributeError (msg : string)
| BadSubscript (obj : json) (key : string)
| NotIterable (obj : json)
| BadFormat (spec : string) (obj : json)
| FloatOverflow (n : Z)
| ScriptStop.

(** The calls recorded for the script: those of the dispatcher, [st.info],
    [st.metric], [st.markdown] and [st.write].  [StInfoValue prefix v] and
    [StWriteValue prefix v] stand for an f-string made of [prefix] followed
    by [str(v)]; [StMetric label spec v] for the label and the value [v]
    formatted by [spec].  Containers and dividers ([st.title],
    [st.columns], [st.expander]) are not recorded. *)
Inductive script_event : Type :=
| Core (ev : event)
| StInfo (msg : string)
| StInfoValue (prefix : string) (v : json)
| StMetric (label spec : string) (v : json)
| StMarkdown (body : string)
| StWriteValue (prefix : string) (v : json).

Definition Script (A : Type) : Type := list script_event * (script_exn + A).

Definition script_ret {A : Type} (a : A) : Script A := ([], inr a).

Definition script_raise {A : Type} (e : script_exn) : Script A := ([], inl e).

Definition script_emit (ev : script_event) : Script unit := ([ev], inr tt).

Definition script_bind {A B : Type} (m : Script A) (f : A -> Script B)
  : Script B :=
  match m with
  | (log, inl e) => (log, inl e)
  | (log, inr a) => let '(log', r) := f a in ((log ++ log')%list, r)
  end.

(** A computation of the dispatcher, run inside the script. *)
Definition lift {A : Type} (m : M A) : Script A :=
  match m with
  | (log, inl e) => (map Core log, inl (Raised e))
  | (log, inr a) => (map Core log, inr a)
  end.

Definition is_script_request (ev : script_event) : bool :=
  match ev with
  | Core ev => is_request ev
  | _ => false
  end.

Definition script_requests {A : Type} (m : Script A) : list script_event :=
  filter is_script_request (fst m).

(** A computation of the script that makes no request. *)
Definition quiet {A : Type} (m : Script A) : Prop :=
  filter is_script_request (fst m) = [].

(** The name of the type of an object, as in the text of an
    [AttributeError]. *)
Definition type_name (v : json) : string :=
  match v with
  | JNull => "NoneType"
  | JBool _ => "bool"
  | JInt _ => "int"
  | JFloat _ => "float"
  | JStr _ => "str"
  | JList _ => "list"
  | JDict _ => "dict"
  end.

(** [obj.get(key, default)]: only a [dict] has the method. *)
Definition get_method (obj : json) (key : string) (default : json)
  : Script json :=
  match obj with
  | JDict items =>
      match dict_get key items with
      | Some v => script_ret v
      | None => script_ret default
      end
  | _ =>
      script_raise
        (AttributeError
           ("'" ++ type_name obj ++ "' object has no attribute 'get'"))
  end.

(** Lines 76-90: the state of the API, the version of the backend and the
    base address. *)
Definition page_head (net : Network) : Script unit :=
  script_bind (lift (check_api_health net)) (fun healthy =>
  script_bind
    (if healthy : bool
     then script_emit
            (Core (StSuccess (Text "✅ API connectée et fonctionnelle")))
     else
       script_bind
         (script_emit
            (Core (StError (Text "❌ API non accessible. Assurez-vous que l'API tourne sur http://localhost:8000"))))
         (fun _ =>
       script_bind
         (script_emit
            (StInfo "💡 Lancez l'API avec : `uvicorn banking_api.main:app --reload`"))
         (fun _ => script_raise ScriptStop)))
    (fun _ =>
  script_bind (lift (get_api_data net "system/metadata" JNull))
    (fun metadata =>
  script_bind
    (if truthy metadata
     then script_bind (get_method metadata "version" (JStr "N/A"))
            (fun version =>
               script_emit (StInfoValue "📦 Version: " version))
     else script_ret tt)
    (fun _ =>
  script_emit (StInfo ("🔗 Base URL: `" ++ API_BASE_URL ++ "`")))))).

(* ================================================================== *)
(** ** The fraud prediction *)

(** [obj[key]] for a string key. *)
Definition subscript (obj : json) (key : string) : Script json :=
  match obj with
  | JDict items =>
      match dict_get key items with
      | Some v => script_ret v
      | None => script_raise (Raised (KeyError key))
      end
  | _ => script_raise (BadSubscript obj key)
  end.

(** The check that the format [.1%] makes of its object: a [float], an
    [int] that a [float] can hold (a [bool] is an [int]); the text itself is
    kept symbolic in [StMetric]. *)
Definition check_percent (v : json) : Script unit :=
  match v with
  | JFloat _ | JBool _ => script_ret tt
  | JInt n =>
      if Z.abs n <? 2 ^ 1024 - 2 ^ 970 then script_ret tt
      else script_raise (FloatOverflow n)
  | _ => script_raise (BadFormat ".1%" v)
  end.

(** The characters of a text in UTF-8: a byte joins the character of the
    byte before it when it is a continuation byte (128 to 191). *)
Fixpoint characters (cs : list ascii) : list (list ascii) :=
  match cs with
  | [] => []
  | c :: rest =>
      let groups := characters rest in
      match rest with
      | next :: _ =>
          if (128 <=? Decoder.code next) && (Decoder.code next <? 192)
          then match groups with
               | first :: others => (c :: first) :: others
               | [] => [[c]]
               end
          else [c] :: groups
      | [] => [[c]]
      end
  end.

(** The items of a [for] loop over an object. *)
Definition iterate (obj : json) : Script (list json) :=
  match obj with
  | JList items => script_ret items
  | JDict items => script_ret (map (fun kv => JStr (fst kv)) items)
  | JStr s =>
      script_ret
        (map (fun c => JStr (string_of_list_ascii c))
           (characters (list_ascii_of_string s)))
  | _ => script_raise (NotIterable obj)
  end.

(** [for x in items: body(x)] *)
Fixpoint for_each {A : Type} (items : list A) (body : A -> Script unit)
  : Script unit :=
  match items with
  | [] => script_ret tt
  | x :: rest => script_bind (body x) (fun _ => for_each rest body)
  end.

(** Lines 482-487. *)
Definition prediction_data (transaction_type : string)
    (amount oldbalance_org newbalance_orig : float) : dict json :=
  [("type", JStr transaction_type); ("amount", JFloat amount);
   ("oldbalanceOrg", JFloat oldbalance_org);
   ("newbalanceOrig", JFloat newbalance_orig)].

(** Lines 491-505: what the page shows for the result of the prediction. *)
Definition show_prediction (result : json) : Script unit :=
  if truthy result then
    script_bind (subscript result "isFraud") (fun is_fraud =>
    script_bind
      (script_emit
         (if truthy is_fraud
          then Core (StError (Text "⚠️ TRANSACTION SUSPECTE !"))
          else Core (StSuccess (Text "✅ Transaction normale"))))
      (fun _ =>
    script_bind (subscript result "probability") (fun probability =>
    script_bind (check_percent probability) (fun _ =>
    script_bind
      (script_emit (StMetric "Probabilité de fraude" ".1%" probability))
      (fun _ =>
    script_bind (script_emit (StMarkdown "**Raisons détectées :**"))
      (fun _ =>
    script_bind (subscript result "reasons") (fun reasons =>
    script_bind (iterate reasons) (fun items =>
    script_bind
      (for_each items (fun reason => script_emit (StWriteValue "• " reason)))
      (fun _ =>
    script_emit (Core (StJson result)))))))))))
  else script_ret tt.

(** Lines 481-505: the action of the button "Analyser la transaction". *)
Definition fraud_prediction (net : Network) (transaction_type : string)
    (amount oldbalance_org newbalance_orig : float) : Script unit :=
  script_bind
    (lift (post_api_data net "fraud/predict"
             (JDict (prediction_data transaction_type amount oldbalance_org
                       newbalance_orig))))
    show_prediction.

(* ================================================================== *)
(** ** Number formatting *)

(** The integer nearest to [n / d], for [d > 0]; a tie goes to the even
    one. *)
Definition round_half_even (n d : Z) : Z :=
  let q := n / d in
  let r := n mod d in
  if 2 * r <? d then q
  else if d <? 2 * r then q + 1
  else if Z.even q then q
  else q + 1.

(** The hundredths of the number [m * 2^e], rounded to the nearest. *)
Definition hundredths (m : positive) (e : Z) : Z :=
  if 0 <=? e then Z.pos m * 2 ^ e * 100
  else round_half_even (Z.pos m * 100) (2 ^ (- e)).

(** Digits in reverse order, a comma after every third digit that is
    followed by another one. *)
Fixpoint group_rev (digits : list ascii) : list ascii :=
  match digits with
  | a :: b :: c :: rest =>
      match rest with
      | [] => [a; b; c]
      | _ :: _ => a :: b :: c :: ","%char :: group_rev rest
      end
  | _ => digits
  end.

(** The thousands separator of the format [,]. *)
Definition group_thousands (digits : string) : string :=
  string_of_list_ascii (rev (group_rev (rev (list_ascii_of_string digits)))).

Definition two_digits (n : Z) : string :=
  if n <? 10 then "0" ++ string_of_Z n else string_of_Z n.

Definition sign_text (negative : bool) : string :=
  if negative then "-" else "".

(** The format [,.2f] of a float given by its sign, mantissa and
    exponent: fixed point with two decimals, correctly rounded, and a comma
    between the thousands of the integer part. *)
Definition format_comma_2f (x : spec_float) : string :=
  match x with
  | S754_nan => "nan"
  | S754_infinity s => sign_text s ++ "inf"
  | S754_zero s => sign_text s ++ "0.00"
  | S754_finite s m e =>
      let h := hundredths m e in
      sign_text s ++ group_thousands (string_of_Z (h / 100)) ++ "."
        ++ two_digits (h mod 100)
  end.

(** Lines 41-43. *)
Definition format_number (num : float) : string :=
  format_comma_2f (Prim2SF num).

Definition is_comma (c : ascii) : bool := Ascii.eqb c ","%char.

Definition is_digit (c : ascii) : bool :=
  match Decoder.digit_of c with
  | Some _ => true
  | None => false
  end.

(** The text without its commas. *)
Definition remove_commas (s : string) : string :=
  string_of_list_ascii
    (filter (fun c => negb (is_comma c)) (list_ascii_of_string s)).

(** The character at position [i] counted from the right end. *)
Definition from_right (s : string) (i : nat) : option ascii :=
  nth_error (rev (list_ascii_of_string s)) i.

(* ================================================================== *)
(** ** Dictionaries *)

Section DictFacts.

Context {V : Type}.

Lemma dict_get_In (k : string) (d : dict V) (v : V) :
  dict_get k d = Some v -> In k (dict_keys d).
Proof.
  induction d as [|[k' v'] d IH]; simpl; [discriminate|].
  destruct (String.eqb_spec k k') as [->|Hne].
  - intros _. now left.
  - intros H. right. now apply IH.
Qed.

Lemma dict_get_None_iff (k : string) (d : dict V) :
  dict_get k d = None <-> ~ In k (dict_keys d).
Proof.
  induction d as [|[k' v'] d IH]; simpl.
  - split; [intros _ []|reflexivity].
  - destruct (String.eqb_spec k k') as [->|Hne].
    + split; [discriminate|]. intros H. exfalso. apply H. now left.
    + rewrite IH. split.
      * intros H [Heq|Hin]; [now apply Hne|now apply H].
      * intros H Hin. apply H. now right.
Qed.

Lemma dict_get_set_same (k : string) (v : V) (d : dict V) :
  dict_get k (dict_set k v d) = Some v.
Proof.
  induction d as [|[k' v'] d IH]; simpl.
  - now rewrite String.eqb_refl.
  - destruct (String.eqb_spec k k') as [->|Hne]; simpl.
    + now rewrite String.eqb_refl.
    + destruct (String.eqb_spec k k'); [contradiction|exact IH].
Qed.

Lemma dict_get_set_other (k k0 : string) (v : V) (d : dict V) :
  k0 <> k -> dict_get k0 (dict_set k v d) = dict_get k0 d.
Proof.
  intros Hne. induction d as [|[k' v'] d IH]; simpl.
  - destruct (String.eqb_spec k0 k); [contradiction|reflexivity].
  - destruct (String.eqb_spec k k') as [->|Hkk']; simpl.
    + destruct (String.eqb_spec k0 k'); [contradiction|reflexivity].
    + destruct (String.eqb_spec k0 k'); [reflexivity|exact IH].
Qed.

End DictFacts.

Lemma append_not_empty (a b : string) :
  b <> "" -> String.eqb (a ++ b) "" = false.
Proof.
  intros Hb. destruct a as [|c a]; simpl.
  - destruct b; [contradiction|reflexivity].
  - reflexivity.
Qed.

(* ================================================================== *)
(** ** The decoder never runs out of fuel *)

Module DecoderFacts.

Import Decoder.

Local Open Scope nat_scope.
Local Open Scope list_scope.

Lemma skip_ws_length (cs : list ascii) :
  List.length (skip_ws cs) <= List.length cs.
Proof.
  induction cs as [|c cs IH]; simpl; [lia|].
  destruct (is_ws c); simpl; lia.
Qed.

Lemma head_is_length (x : ascii) (cs rest : list ascii) :
  head_is x cs = Some rest -> List.length cs = S (List.length rest).
Proof.
  destruct cs as [|c cs]; simpl; [discriminate|].
  destruct (Ascii.eqb c x); [|discriminate].
  intros H. now injection H as <-.
Qed.

Lemma prepend_Some (pre : list ascii) (r : option (list ascii * list ascii))
    (s rest : list ascii) :
  prepend pre r = Some (s, rest) -> exists s', r = Some (s', rest).
Proof.
  destruct r as [[s' rest']|]; simpl; [|discriminate].
  intros H. injection H as _ <-. now exists s'.
Qed.

Lemma scanstring_length_le (n : nat) :
  forall cs s rest,
    List.length cs <= n ->
    scanstring cs = Some (s, rest) -> List.length rest < List.length cs.
Proof.
  induction n as [|n IH]; intros cs s rest Hn H.
  - destruct cs; [discriminate|simpl in Hn; lia].
  - assert (Hrec : forall cs' pre,
               List.length cs' <= n ->
               prepend pre (scanstring cs') = Some (s, rest) ->
               List.length rest < List.length cs').
    { intros cs' pre Hn' Hp. apply prepend_Some in Hp as [s' Hs'].
      now apply (IH cs' s'). }
    destruct cs as [|c cs]; [discriminate|]. simpl in Hn. simpl in H.
    destruct (Ascii.eqb c "034").
    { injection H as _ <-. simpl. lia. }
    destruct (Ascii.eqb c "\").
    2:{ destruct (code c <? 32)%Z; [discriminate|].
        apply Hrec in H; simpl; lia. }
    destruct cs as [|esc cs]; [discriminate|]. simpl in Hn.
    destruct (Ascii.eqb esc "u").
    2:{ destruct (backslash esc); [|discriminate].
        apply Hrec in H; simpl; lia. }
    destruct cs as [|h1 [|h2 [|h3 [|h4 cs]]]]; try discriminate.
    simpl in Hn.
    destruct (hex4 h1 h2 h3 h4) as [uni|]; [|discriminate].
    destruct (is_high_surrogate uni).
    2:{ apply Hrec in H; simpl; lia. }
    destruct cs as [|b [|u [|g1 [|g2 [|g3 [|g4 cs]]]]]];
      try (apply Hrec in H; simpl in *; lia).
    destruct (Ascii.eqb b "\" && Ascii.eqb u "u").
    2:{ apply Hrec in H; simpl in *; lia. }
    destruct (hex4 g1 g2 g3 g4) as [uni2|]; [|discriminate].
    destruct (is_low_surrogate uni2); apply Hrec in H; simpl in *; lia.
Qed.

Lemma scanstring_length (cs s rest : list ascii) :
  scanstring cs = Some (s, rest) -> List.length rest < List.length cs.
Proof. apply (scanstring_length_le (List.length cs)). lia. Qed.

Lemma scan_digits_length (cs : list ascii) :
  List.length (snd (scan_digits cs)) <= List.length cs.
Proof.
  induction cs as [|c cs IH]; simpl; [lia|].
  destruct (digit_of c); simpl; [|lia].
  destruct (scan_digits cs) as [ds rest]. simpl in *. lia.
Qed.

Lemma scan_int_length (cs : list ascii) (ds : list Z) (rest : list ascii) :
  scan_int cs = Some (ds, rest) -> List.length rest < List.length cs.
Proof.
  unfold scan_int. destruct cs as [|c cs]; [discriminate|].
  destruct (digit_of c) as [d|]; [|discriminate].
  destruct (d =? 0)%Z.
  - intros H. injection H as _ <-. simpl. lia.
  - pose proof (scan_digits_length cs) as Hd.
    destruct (scan_digits cs) as [ds' rest']. intros H.
    injection H as _ <-. simpl in *. lia.
Qed.

Lemma scan_frac_length (cs : list ascii) :
  List.length (snd (scan_frac cs)) <= List.length cs.
Proof.
  unfold scan_frac. destruct (head_is "." cs) as [r|] eqn:Hdot; [|simpl; lia].
  apply head_is_length in Hdot. pose proof (scan_digits_length r) as Hd.
  destruct (scan_digits r) as [[|d ds] r']; simpl in *; lia.
Qed.

Lemma scan_exp_length (cs : list ascii) :
  List.length (snd (scan_exp cs)) <= List.length cs.
Proof.
  unfold scan_exp.
  assert (He : forall r,
             match head_is "e" cs with
             | Some r => Some r
             | None => head_is "E" cs
             end = Some r -> List.length cs = S (List.length r)).
  { intros r. destruct (head_is "e" cs) eqn:H1.
    - intros H. injection H as <-. now apply head_is_length in H1.
    - apply head_is_length. }
  destruct (match head_is "e" cs with
            | Some r => Some r
            | None => head_is "E" cs
            end) as [r|]; [|simpl; lia].
  specialize (He r eq_refl).
  assert (Hs : forall eneg r1,
             (match head_is "-" r with
              | Some r1 => (true, r1)
              | None =>
                  match head_is "+" r with
                  | Some r1 => (false, r1)
                  | None => (false, r)
                  end
              end) = (eneg, r1) -> List.length r1 <= List.length r).
  { intros eneg r1. destruct (head_is "-" r) eqn:H1.
    - intros H. injection H as _ <-. apply head_is_length in H1. lia.
    - destruct (head_is "+" r) eqn:H2; intros H; injection H as _ <-.
      + apply head_is_length in H2. lia.
      + lia. }
  destruct (match head_is "-" r with
            | Some r1 => (true, r1)
            | None =>
                match head_is "+" r with
                | Some r1 => (false, r1)
                | None => (false, r)
                end
            end) as [eneg r1].
  specialize (Hs eneg r1 eq_refl).
  pose proof (scan_digits_length r1) as Hd.
  destruct (scan_digits r1) as [[|d ds] r2]; simpl in *; lia.
Qed.

Lemma scan_number_length (cs : list ascii) (v : json) (rest : list ascii) :
  scan_number cs = Some (v, rest) -> List.length rest < List.length cs.
Proof.
  unfold scan_number.
  assert (Hneg : forall neg cs1,
             (match head_is "-" cs with
              | Some r => (true, r)
              | None => (false, cs)
              end) = (neg, cs1) -> List.length cs1 <= List.length cs).
  { intros neg cs1. destruct (head_is "-" cs) eqn:H1;
      intros H; injection H as _ <-; [apply head_is_length in H1|]; lia. }
  destruct (match head_is "-" cs with
            | Some r => (true, r)
            | None => (false, cs)
            end) as [neg cs1].
  specialize (Hneg neg cs1 eq_refl).
  destruct (scan_int cs1) as [[int_digits cs2]|] eqn:Hint; [|discriminate].
  apply scan_int_length in Hint.
  pose proof (scan_frac_length cs2) as Hf.
  destruct (scan_frac cs2) as [frac cs3].
  pose proof (scan_exp_length cs3) as He.
  destruct (scan_exp cs3) as [exp cs4]. simpl in *.
  destruct frac, exp; intros H; injection H as _ <-; lia.
Qed.

Lemma strip_prefix_length (p cs rest : list ascii) :
  strip_prefix p cs = Some rest ->
  List.length cs = List.length p + List.length rest.
Proof.
  revert cs. induction p as [|a p IH]; intros cs; simpl.
  - intros H. now injection H as <-.
  - destruct cs as [|c cs]; [discriminate|].
    destruct (Ascii.eqb a c); [|discriminate].
    intros H. apply IH in H. simpl. lia.
Qed.

Lemma literal_length (word : string) (v v' : json) (cs rest : list ascii) :
  word <> ""%string ->
  literal word v cs = Some (v', rest) -> List.length rest < List.length cs.
Proof.
  intros Hw. unfold literal.
  destruct (strip_prefix (list_ascii_of_string word) cs) as [r|] eqn:Hp;
    [|discriminate].
  intros H. injection H as _ <-. apply strip_prefix_length in Hp.
  destruct word; [contradiction|]. simpl in Hp. lia.
Qed.

Lemma scan_scalar_length (cs : list ascii) (v : json) (rest : list ascii) :
  scan_scalar cs = Some (v, rest) -> List.length rest < List.length cs.
Proof.
  unfold scan_scalar, or_else.
  repeat match goal with
  | |- context [match literal ?w ?x cs with _ => _ end] =>
      destruct (literal w x cs) as [[v0 r0]|] eqn:?;
      [intros H; injection H as <- <-;
       eapply literal_length; [|eassumption]; discriminate|]
  | |- context [match scan_number cs with _ => _ end] =>
      destruct (scan_number cs) as [[v0 r0]|] eqn:?;
      [intros H; injection H as <- <-; now apply scan_number_length with v0|]
  end.
  apply literal_length. discriminate.
Qed.


Lemma scan_once_S (fuel : nat) (cs : list ascii) :
  scan_once (S fuel) cs =
    match head_is "034" cs with
    | Some rest =>
        match scanstring rest with
        | Some (s, rest') => Parsed (JStr (string_of_list_ascii s)) rest'
        | None => SyntaxError
        end
    | None =>
    match head_is "{" cs with
    | Some rest =>
        match head_is "}" (skip_ws rest) with
        | Some rest' => Parsed (JDict []) rest'
        | None => scan_object fuel [] (skip_ws rest)
        end
    | None =>
    match head_is "[" cs with
    | Some rest =>
        match head_is "]" (skip_ws rest) with
        | Some rest' => Parsed (JList []) rest'
        | None => scan_array fuel [] (skip_ws rest)
        end
    | None => of_option (scan_scalar cs)
    end end end.
Proof. reflexivity. Qed.

Lemma scan_array_S (fuel : nat) (values : list json) (cs : list ascii) :
  scan_array (S fuel) values cs =
    match scan_once fuel cs with
    | Parsed v rest =>
        match head_is "]" (skip_ws rest) with
        | Some rest' => Parsed (JList (values ++ [v])) rest'
        | None =>
            match head_is "," (skip_ws rest) with
            | Some rest' => scan_array fuel (values ++ [v]) (skip_ws rest')
            | None => SyntaxError
            end
        end
    | SyntaxError => SyntaxError
    | OutOfFuel => OutOfFuel
    end.
Proof. reflexivity. Qed.

Lemma scan_object_S (fuel : nat) (pairs : dict json) (cs : list ascii) :
  scan_object (S fuel) pairs cs =
    match head_is "034" cs with
    | None => SyntaxError
    | Some rest =>
        match scanstring rest with
        | None => SyntaxError
        | Some (k, rest1) =>
            match head_is ":" (skip_ws rest1) with
            | None => SyntaxError
            | Some rest2 =>
                match scan_once fuel (skip_ws rest2) with
                | Parsed v rest3 =>
                    match head_is "}" (skip_ws rest3) with
                    | Some rest4 =>
                        Parsed (JDict (dict_set (string_of_list_ascii k) v pairs))
                          rest4
                    | None =>
                        match head_is "," (skip_ws rest3) with
                        | Some rest4 =>
                            scan_object fuel
                              (dict_set (string_of_list_ascii k) v pairs)
                              (skip_ws rest4)
                        | None => SyntaxError
                        end
                    end
                | SyntaxError => SyntaxError
                | OutOfFuel => OutOfFuel
                end
            end
        end
    end.
Proof. reflexivity. Qed.

(** Collects what is known of the lengths of the texts at hand. *)
Ltac lengths :=
  repeat match goal with
  | H : head_is _ _ = Some _ |- _ => apply head_is_length in H
  | H : scanstring _ = Some _ |- _ => apply scanstring_length in H
  | H : scan_scalar _ = Some _ |- _ => apply scan_scalar_length in H
  end;
  repeat match goal with
  | |- context [skip_ws ?cs] =>
      lazymatch goal with
      | _ : List.length (skip_ws cs) <= List.length cs |- _ => fail
      | _ => pose proof (skip_ws_length cs)
      end
  | _ : context [skip_ws ?cs] |- _ =>
      lazymatch goal with
      | _ : List.length (skip_ws cs) <= List.length cs |- _ => fail
      | _ => pose proof (skip_ws_length cs)
      end
  end.

(** A value that is read takes at least one character. *)
Lemma scan_length (fuel : nat) :
  forall (cs : list ascii) (v : json) (rest : list ascii),
    (scan_once fuel cs = Parsed v rest ->
     List.length rest < List.length cs) /\
    (forall values, scan_array fuel values cs = Parsed v rest ->
                    List.length rest < List.length cs) /\
    (forall pairs, scan_object fuel pairs cs = Parsed v rest ->
                   List.length rest < List.length cs).
Proof.
  induction fuel as [|fuel IH]; intros cs v rest.
  - repeat split; intros; discriminate.
  - split; [|split].
    + rewrite scan_once_S.
      destruct (head_is "034" cs) as [r|] eqn:Hq.
      { destruct (scanstring r) as [[s r']|] eqn:Hs; [|discriminate].
        intros H. injection H as _ <-. lengths. lia. }
      destruct (head_is "{" cs) as [r|] eqn:Hb.
      { destruct (head_is "}" (skip_ws r)) as [r'|] eqn:Hc.
        - intros H. injection H as _ <-. lengths. lia.
        - intros H. apply (IH (skip_ws r) v rest) in H. lengths. lia. }
      destruct (head_is "[" cs) as [r|] eqn:Ha.
      { destruct (head_is "]" (skip_ws r)) as [r'|] eqn:Hc.
        - intros H. injection H as _ <-. lengths. lia.
        - intros H. apply (IH (skip_ws r) v rest) in H. lengths. lia. }
      destruct (scan_scalar cs) as [[v' r']|] eqn:Hs; [|discriminate].
      intros H. injection H as _ <-. lengths. lia.
    + intros values. rewrite scan_array_S.
      destruct (scan_once fuel cs) as [v1 r1| |] eqn:H1; try discriminate.
      apply (IH cs v1 r1) in H1.
      destruct (head_is "]" (skip_ws r1)) as [r'|] eqn:Hc.
      { intros H. injection H as _ <-. lengths. lia. }
      destruct (head_is "," (skip_ws r1)) as [r'|] eqn:Hd; [|discriminate].
      intros H. apply (IH (skip_ws r') v rest) in H. lengths. lia.
    + intros pairs. rewrite scan_object_S.
      destruct (head_is "034" cs) as [r|] eqn:Hq; [|discriminate].
      destruct (scanstring r) as [[k r1]|] eqn:Hs; [|discriminate].
      destruct (head_is ":" (skip_ws r1)) as [r2|] eqn:Hc; [|discriminate].
      destruct (scan_once fuel (skip_ws r2)) as [v3 r3| |] eqn:H3;
        try discriminate.
      apply (IH (skip_ws r2) v3 r3) in H3.
      destruct (head_is "}" (skip_ws r3)) as [r4|] eqn:He.
      { intros H. injection H as _ <-. lengths. lia. }
      destruct (head_is "," (skip_ws r3)) as [r4|] eqn:Hd; [|discriminate].
      intros H. apply (IH (skip_ws r4) v rest) in H. lengths. lia.
Qed.

(** Two units of fuel per character, and two more, are enough for a value;
    the rest of an array or of an object needs one more. *)
Lemma scan_fuel (fuel : nat) :
  forall cs : list ascii,
    (2 * List.length cs + 2 <= fuel -> scan_once fuel cs <> OutOfFuel) /\
    (2 * List.length cs + 3 <= fuel ->
     forall values, scan_array fuel values cs <> OutOfFuel) /\
    (2 * List.length cs + 3 <= fuel ->
     forall pairs, scan_object fuel pairs cs <> OutOfFuel).
Proof.
  induction fuel as [|fuel IH]; intros cs.
  - repeat split; intros; lia.
  - split; [|split].
    + intros Hf. rewrite scan_once_S.
      destruct (head_is "034" cs) as [r|] eqn:Hq.
      { destruct (scanstring r) as [[s r']|]; discriminate. }
      destruct (head_is "{" cs) as [r|] eqn:Hb.
      { destruct (head_is "}" (skip_ws r)) as [r'|] eqn:Hc; [discriminate|].
        apply (IH (skip_ws r)). lengths. lia. }
      destruct (head_is "[" cs) as [r|] eqn:Ha.
      { destruct (head_is "]" (skip_ws r)) as [r'|] eqn:Hc; [discriminate|].
        apply (IH (skip_ws r)). lengths. lia. }
      destruct (scan_scalar cs) as [[v' r']|]; discriminate.
    + intros Hf values. rewrite scan_array_S.
      destruct (scan_once fuel cs) as [v1 r1| |] eqn:H1.
      * apply (scan_length fuel cs v1 r1) in H1.
        destruct (head_is "]" (skip_ws r1)) as [r'|] eqn:Hc; [discriminate|].
        destruct (head_is "," (skip_ws r1)) as [r'|] eqn:Hd; [|discriminate].
        apply (IH (skip_ws r')). lengths. lia.
      * discriminate.
      * exfalso. revert H1. apply (IH cs). lia.
    + intros Hf pairs. rewrite scan_object_S.
      destruct (head_is "034" cs) as [r|] eqn:Hq; [|discriminate].
      destruct (scanstring r) as [[k r1]|] eqn:Hs; [|discriminate].
      destruct (head_is ":" (skip_ws r1)) as [r2|] eqn:Hc; [|discriminate].
      destruct (scan_once fuel (skip_ws r2)) as [v3 r3| |] eqn:H3.
      * apply (scan_length fuel (skip_ws r2) v3 r3) in H3.
        destruct (head_is "}" (skip_ws r3)) as [r4|] eqn:He; [discriminate|].
        destruct (head_is "," (skip_ws r3)) as [r4|] eqn:Hd; [|discriminate].
        apply (IH (skip_ws r4)). lengths. lia.
      * discriminate.
      * exfalso. revert H3. apply (IH (skip_ws r2)). lengths. lia.
Qed.

(** The fuel that [loads] gives is enough: a document is read or refused,
    the decoder never gives up. *)
Lemma scan_once_fuel (cs : list ascii) :
  scan_once (fuel_for cs) cs <> OutOfFuel.
Proof. apply scan_fuel. unfold fuel_for. lia. Qed.

(** More fuel does not change an answer. *)
Lemma scan_more_fuel (fuel : nat) :
  forall cs : list ascii,
    (scan_once fuel cs <> OutOfFuel ->
     scan_once (S fuel) cs = scan_once fuel cs) /\
    (forall values, scan_array fuel values cs <> OutOfFuel ->
                    scan_array (S fuel) values cs = scan_array fuel values cs) /\
    (forall pairs, scan_object fuel pairs cs <> OutOfFuel ->
                   scan_object (S fuel) pairs cs = scan_object fuel pairs cs).
Proof.
  induction fuel as [|fuel IH]; intros cs.
  - repeat split; intros; contradiction.
  - split; [|split].
    + rewrite (scan_once_S (S fuel)), (scan_once_S fuel).
      destruct (head_is "034" cs); [reflexivity|].
      destruct (head_is "{" cs) as [r|].
      { destruct (head_is "}" (skip_ws r)); [reflexivity|]. apply IH. }
      destruct (head_is "[" cs) as [r|]; [|reflexivity].
      destruct (head_is "]" (skip_ws r)); [reflexivity|]. apply IH.
    + intros values. rewrite (scan_array_S (S fuel)), (scan_array_S fuel).
      destruct (scan_once fuel cs) as [v1 r1| |] eqn:H1.
      * rewrite (proj1 (IH cs)), H1 by (rewrite H1; discriminate).
        destruct (head_is "]" (skip_ws r1)); [reflexivity|].
        destruct (head_is "," (skip_ws r1)); [|reflexivity]. apply IH.
      * rewrite (proj1 (IH cs)), H1 by (rewrite H1; discriminate).
        reflexivity.
      * intros H. contradiction.
    + intros pairs. rewrite (scan_object_S (S fuel)), (scan_object_S fuel).
      destruct (head_is "034" cs) as [r|]; [|reflexivity].
      destruct (scanstring r) as [[k r1]|]; [|reflexivity].
      destruct (head_is ":" (skip_ws r1)) as [r2|]; [|reflexivity].
      destruct (scan_once fuel (skip_ws r2)) as [v3 r3| |] eqn:H3.
      * rewrite (proj1 (IH (skip_ws r2))), H3 by (rewrite H3; discriminate).
        destruct (head_is "}" (skip_ws r3)); [reflexivity|].
        destruct (head_is "," (skip_ws r3)); [|reflexivity]. apply IH.
      * rewrite (proj1 (IH (skip_ws r2))), H3 by (rewrite H3; discriminate).
        reflexivity.
      * intros H. contradiction.
Qed.


(** The answer of [loads] is that of the decoder with any larger fuel. *)
Lemma scan_once_any_fuel (cs : list ascii) (extra : nat) :
  scan_once (extra + fuel_for cs) cs = scan_once (fuel_for cs) cs.
Proof.
  induction extra as [|extra IH]; [reflexivity|].
  change (S extra + fuel_for cs) with (S (extra + fuel_for cs)).
  rewrite (proj1 (scan_more_fuel (extra + fuel_for cs) cs)).
  - exact IH.
  - rewrite IH. apply scan_once_fuel.
Qed.

(** A document that [loads] refuses is refused for its syntax: a value
    cannot be read, or text other than white space follows the value. *)
Lemma loads_None (s : string) :
  loads s = None ->
  let cs := skip_ws (list_ascii_of_string s) in
  scan_once (fuel_for cs) cs = SyntaxError \/
  exists (v : json) (rest : list ascii),
    scan_once (fuel_for cs) cs = Parsed v rest /\ skip_ws rest <> [].
Proof.
  intros H cs. unfold loads in H. fold cs in H.
  pose proof (scan_once_fuel cs) as Hfuel.
  destruct (scan_once (fuel_for cs) cs) as [v rest| |].
  - right. exists v, rest. split; [reflexivity|].
    destruct (skip_ws rest); discriminate.
  - now left.
  - contradiction.
Qed.

(** A document that [loads] accepts is one value between white space. *)
Lemma loads_Some (s : string) (v : json) :
  loads s = Some v ->
  let cs := skip_ws (list_ascii_of_string s) in
  exists rest : list ascii,
    scan_once (fuel_for cs) cs = Parsed v rest /\ skip_ws rest = [].
Proof.
  intros H cs. unfold loads in H. fold cs in H.
  destruct (scan_once (fuel_for cs) cs) as [v' rest| |]; try discriminate.
  exists rest. destruct (skip_ws rest); [|discriminate].
  injection H as <-. now split.
Qed.

End DecoderFacts.

(** The documents of the specification's examples, and a few numbers. *)
Example json_loads_examples :
  json_loads "" = None /\
  json_loads "{invalid" = None /\
  json_loads "[1,2,3]" = Some (JList [JInt 1; JInt 2; JInt 3]) /\
  json_loads "{}" = Some (JDict []) /\
  json_loads ("{" ++ quoted "page" ++ ": 1, " ++ quoted "limit" ++ ": 10}") =
    Some (JDict [("page", JInt 1); ("limit", JInt 10)]) /\
  json_loads ("{" ++ quoted "type" ++ ": " ++ quoted "TRANSFER" ++ ", "
              ++ quoted "amount" ++ ": 5000}") =
    Some (JDict [("type", JStr "TRANSFER"); ("amount", JInt 5000)]) /\
  json_loads " [ true , false , null ] " =
    Some (JList [JBool true; JBool false; JNull]) /\
  json_loads "[1,]" = None /\
  json_loads "01" = None /\
  json_loads "-12" = Some (JInt (-12)).
Proof. repeat split; reflexivity. Qed.

Example json_loads_floats :
  json_loads "0.1" = Some (JFloat 0x1.999999999999ap-4) /\
  json_loads "100.0" = Some (JFloat 100) /\
  json_loads "-2.5e3" = Some (JFloat (-2500)) /\
  json_loads "1e23" = Some (JFloat 0x1.52d02c7e14af6p+76) /\
  json_loads "5e-324" = Some (JFloat 0x0.0000000000001p-1022) /\
  json_loads "1e400" = Some (JFloat infinity) /\
  json_loads "NaN" = Some (JFloat nan).
Proof. repeat split; vm_compute; reflexivity. Qed.

(* ================================================================== *)
(** ** Filter composition: listing and search *)

Ltac split_filters :=
  repeat match goal with
  | |- context [String.eqb ?s ?lit] =>
      is_var s; destruct (String.eqb s lit) eqn:?
  | |- context [gt0 ?x] => is_var x; destruct (gt0 x) eqn:?
  end.

Ltac keys_among :=
  let k := fresh "k" in
  let H := fresh "H" in
  intros k H; simpl in H; simpl; tauto.

Ltac keys_distinct :=
  repeat constructor; simpl; intuition discriminate.

(** C4: the listing parameters always hold [page] and [limit]; [type] is
    present exactly when the selected type is not "Tous" (the "any" entry);
    [isFraud] is 1 for "Frauduleuses", 0 for "Non frauduleuses" and absent
    otherwise ("Toutes"); [min_amount] and [max_amount] are present exactly
    when the bound is strictly positive; no other key occurs; the
    all-default selection gives exactly page 1 and limit 10. *)
Theorem transactions_params_spec (page limit : Z)
    (selected_type fraud_filter : string) (min_amount max_amount : float) :
  let params := transactions_params page limit selected_type fraud_filter
                  min_amount max_amount in
  dict_get "page" params = Some (JInt page) /\
  dict_get "limit" params = Some (JInt limit) /\
  dict_get "type" params =
    (if String.eqb selected_type "Tous" then None
     else Some (JStr selected_type)) /\
  dict_get "isFraud" params =
    (if String.eqb fraud_filter "Frauduleuses" then Some (JInt 1)
     else if String.eqb fraud_filter "Non frauduleuses" then Some (JInt 0)
     else None) /\
  dict_get "isFraud" (transactions_params page limit selected_type "Toutes"
                        min_amount max_amount) = None /\
  dict_get "min_amount" params =
    (if gt0 min_amount then Some (JFloat min_amount) else None) /\
  dict_get "max_amount" params =
    (if gt0 max_amount then Some (JFloat max_amount) else None) /\
  incl (dict_keys params)
       ["page"; "limit"; "type"; "isFraud"; "min_amount"; "max_amount"] /\
  NoDup (dict_keys params) /\
  transactions_params 1 10 "Tous" "Toutes" 0 0 =
    [("page", JInt 1); ("limit", JInt 10)].
Proof.
  unfold transactions_params. split_filters; cbn;
    repeat (split; [reflexivity|]);
    (split; [keys_among|]); (split; [keys_distinct|reflexivity]).
Qed.

(** C3: the search body holds the key [amount_range] exactly when the
    minimum or the maximum is strictly positive; its value is then the pair
    of the minimum (0 when not positive) and the maximum (999999999 when
    not positive); with both bounds 0 the key is absent; minimum 100 and
    maximum 0 give the pair 100, 999999999. *)
Theorem search_data_amount_range (search_type fraud_search : string)
    (amount_min_search amount_max_search : float) :
  let body := search_data search_type fraud_search
                amount_min_search amount_max_search in
  (In "amount_range" (dict_keys body) <->
     gt0 amount_min_search || gt0 amount_max_search = true) /\
  dict_get "amount_range" body =
    (if gt0 amount_min_search || gt0 amount_max_search
     then Some (JList
            [ if gt0 amount_min_search then JFloat amount_min_search
              else JInt 0;
              if gt0 amount_max_search then JFloat amount_max_search
              else JInt 999999999 ])
     else None) /\
  dict_get "amount_range" (search_data search_type fraud_search 0 0) = None /\
  dict_get "amount_range" (search_data search_type fraud_search 100 0) =
    Some (JList [JFloat 100; JInt 999999999]).
Proof.
  unfold search_data. split_filters; cbn;
    (split;
     [split; intros H;
      [first [reflexivity | intuition discriminate]
      |first [discriminate H | tauto]]
     |]);
    repeat split; reflexivity.
Qed.

(** C5: the search body never holds [page] or [limit]; [type] is present
    exactly when the selected type is not "Tous"; [isFraud] is 1 for the
    fraud entry ("Oui"), 0 for the non-fraud entry ("Non") and absent
    otherwise; entry by entry of the two select boxes, and type by type,
    these two keys are those of the listing parameters. *)
Theorem search_data_type_fraud (search_type fraud_search : string)
    (amount_min_search amount_max_search : float) :
  let body := search_data search_type fraud_search
                amount_min_search amount_max_search in
  ~ In "page" (dict_keys body) /\
  ~ In "limit" (dict_keys body) /\
  dict_get "type" body =
    (if String.eqb search_type "Tous" then None else Some (JStr search_type)) /\
  dict_get "isFraud" body =
    (if String.eqb fraud_search "Oui" then Some (JInt 1)
     else if String.eqb fraud_search "Non" then Some (JInt 0)
     else None) /\
  (forall (page limit : Z) (fraud_filter : string) (min_amount max_amount : float),
     dict_get "type" body =
     dict_get "type" (transactions_params page limit search_type fraud_filter
                        min_amount max_amount)) /\
  (forall (index : nat) (page limit : Z) (selected_type : string)
          (min_amount max_amount : float),
     dict_get "isFraud"
       (search_data search_type (selectbox fraud_search_options index)
          amount_min_search amount_max_search) =
     dict_get "isFraud"
       (transactions_params page limit selected_type
          (selectbox fraud_filter_options index) min_amount max_amount)).
Proof.
  cbv zeta. repeat split.
  - unfold search_data. split_filters; cbn; intuition discriminate.
  - unfold search_data. split_filters; cbn; intuition discriminate.
  - unfold search_data. split_filters; reflexivity.
  - unfold search_data. split_filters; reflexivity.
  - intros page limit fraud_filter min_amount max_amount.
    unfold search_data, transactions_params. split_filters; reflexivity.
  - intros index page limit selected_type min_amount max_amount.
    unfold search_data, transactions_params.
    split_filters; destruct index as [|[|[|[|index]]]]; reflexivity.
Qed.

(* ================================================================== *)
(** ** Route registry *)

(** C8: whatever the category, the registry is a non-empty sequence of
    routes with pairwise distinct names, each with a non-empty endpoint and
    a method that is GET or POST; for the five categories of the select box
    the routes come in the order in which the source lists them. *)
Theorem routes_well_formed (route_category : string) :
  routes route_category <> [] /\
  NoDup (dict_keys (routes route_category)) /\
  forallb (fun entry => route_ok (snd entry)) (routes route_category) = true /\
  Forall (fun c => routes c <> []) route_categories /\
  dict_keys (routes "Transactions") =
    ["GET /transactions"; "GET /transactions/{id}"; "GET /transactions/types";
     "GET /transactions/recent"; "POST /transactions/search"] /\
  dict_keys (routes "Statistiques") =
    ["GET /stats/overview"; "GET /stats/amount-distribution";
     "GET /stats/by-type"; "GET /stats/daily"] /\
  dict_keys (routes "Fraude") =
    ["GET /fraud/summary"; "GET /fraud/by-type"; "POST /fraud/predict"] /\
  dict_keys (routes "Clients") =
    ["GET /customers"; "GET /customers/{id}"; "GET /customers/top"] /\
  dict_keys (routes "Système") = ["GET /system/health"; "GET /system/metadata"].
Proof.
  split; [|split; [|split]].
  - unfold routes. split_filters; discriminate.
  - unfold routes. split_filters; keys_distinct.
  - unfold routes. split_filters; reflexivity.
  - split; [|repeat split; reflexivity].
    repeat constructor; discriminate.
Qed.

(* ================================================================== *)
(** ** Computations *)

Section MonadFacts.

Context {A B : Type}.

Lemma bind_ret_l (a : A) (f : A -> M B) : bind (ret a) f = f a.
Proof. unfold bind, ret. now destruct (f a). Qed.



End MonadFacts.



(* ================================================================== *)
(** ** The dispatcher: [get_api_data] and [post_api_data] *)

Lemma http_error_msg_error (r : Response) :
  400 <= status_code r < 600 ->
  http_error_msg r =
    string_of_Z (status_code r)
    ++ (if status_code r <? 500 then " Client Error: " else " Server Error: ")
    ++ reason r ++ " for url: " ++ url r.
Proof.
  intros [Hlo Hhi]. unfold http_error_msg.
  destruct (Z.ltb_spec (status_code r) 500) as [H5|H5].
  - replace (400 <=? status_code r) with true by (symmetry; now apply Z.leb_le).
    reflexivity.
  - replace (500 <=? status_code r) with true by (symmetry; now apply Z.leb_le).
    replace (status_code r <? 600) with true by (symmetry; now apply Z.ltb_lt).
    now rewrite andb_false_r.
Qed.

Lemma http_error_msg_other (r : Response) :
  ~ (400 <= status_code r < 600) -> http_error_msg r = "".
Proof.
  intros H. unfold http_error_msg.
  destruct (Z.leb_spec 400 (status_code r)), (Z.ltb_spec (status_code r) 500),
    (Z.leb_spec 500 (status_code r)), (Z.ltb_spec (status_code r) 600);
    simpl; try reflexivity; lia.
Qed.

Lemma raise_for_status_error (r : Response) :
  400 <= status_code r < 600 ->
  raise_for_status r = raise (HTTPError (http_error_msg r) r).
Proof.
  intros H. unfold raise_for_status.
  rewrite (http_error_msg_error r H) at 1.
  rewrite append_not_empty; [reflexivity|].
  destruct (status_code r <? 500); discriminate.
Qed.

Lemma raise_for_status_ok (r : Response) :
  ~ (400 <= status_code r < 600) -> raise_for_status r = ret tt.
Proof.
  intros H. unfold raise_for_status. now rewrite (http_error_msg_other r H).
Qed.

Section Dispatch.

Variable net : Network.
Variables (endpoint : string) (params : json) (r : Response).

Let target : string := API_BASE_URL ++ "/" ++ endpoint.

Lemma get_api_data_response :
  net_get net target params None = inr r ->
  get_api_data net endpoint params =
    try_except
      ((emit (RequestsGet target params None)) ;;;
       (raise_for_status r) ;;; response_json r)
      [(is_RequestException,
        fun e => (emit (StError (TextExn "❌ Erreur API: " e))) ;;; ret JNull)].
Proof.
  intros Hnet. unfold get_api_data, requests_get. fold target.
  rewrite Hnet. reflexivity.
Qed.

Lemma post_api_data_response :
  net_post net target params = inr r ->
  post_api_data net endpoint params =
    try_except
      ((emit (RequestsPost target params)) ;;;
       (raise_for_status r) ;;; response_json r)
      [(is_RequestException,
        fun e => (emit (StError (TextExn "❌ Erreur API: " e))) ;;; ret JNull)].
Proof.
  intros Hnet. unfold post_api_data, requests_post. fold target.
  rewrite Hnet. reflexivity.
Qed.

(** C2 (amended): when the response has a client or server error status
    (400 to 599), GET and POST alike return [None] after reporting one
    error whose text is that of the [HTTPError] raised for the response:
    the status code, "Client Error" or "Server Error", the reason text and
    the address; the exception carries the response and so its status. *)
Theorem api_data_http_error :
  400 <= status_code r < 600 ->
  let e := HTTPError
             (string_of_Z (status_code r)
              ++ (if status_code r <? 500 then " Client Error: "
                  else " Server Error: ")
              ++ reason r ++ " for url: " ++ url r) r in
  (net_get net target params None = inr r ->
   get_api_data net endpoint params =
     ([RequestsGet target params None;
       StError (TextExn "❌ Erreur API: " e)], inr JNull)) /\
  (net_post net target params = inr r ->
   post_api_data net endpoint params =
     ([RequestsPost target params;
       StError (TextExn "❌ Erreur API: " e)], inr JNull)).
Proof.
  intros Hst e. subst e. rewrite <- (http_error_msg_error r Hst). split; intros Hnet.
  - rewrite (get_api_data_response Hnet), (raise_for_status_error r Hst).
    reflexivity.
  - rewrite (post_api_data_response Hnet), (raise_for_status_error r Hst).
    reflexivity.
Qed.

(** C9 (amended): when the response has a 2xx status and its body decodes
    as JSON, GET and POST alike return the decoded body as it is, and
    nothing else happens than the request. *)
Theorem api_data_success (payload : json) :
  200 <= status_code r < 300 ->
  json_loads (text r) = Some payload ->
  (net_get net target params None = inr r ->
   get_api_data net endpoint params =
     ([RequestsGet target params None], inr payload)) /\
  (net_post net target params = inr r ->
   post_api_data net endpoint params =
     ([RequestsPost target params], inr payload)).
Proof.
  intros Hst Hbody.
  assert (Hok : ~ (400 <= status_code r < 600)) by lia.
  split; intros Hnet.
  - rewrite (get_api_data_response Hnet), (raise_for_status_ok r Hok).
    unfold response_json. rewrite Hbody. reflexivity.
  - rewrite (post_api_data_response Hnet), (raise_for_status_ok r Hok).
    unfold response_json. rewrite Hbody. reflexivity.
Qed.

End Dispatch.

Lemma api_data_http_error_500 :
  let r := backend_response 500 "Internal Server Error" "transactions"
             "Internal Server Error" in
  let e := HTTPError
             "500 Server Error: Internal Server Error for url: http://localhost:8000/api/transactions"
             r in
  400 <= status_code r < 600 /\
  get_api_data (answering_network r) "transactions" JNull =
    ([RequestsGet "http://localhost:8000/api/transactions" JNull None;
      StError (TextExn "❌ Erreur API: " e)], inr JNull) /\
  post_api_data (answering_network r) "transactions/search" (JDict []) =
    ([RequestsPost "http://localhost:8000/api/transactions/search" (JDict []);
      StError (TextExn "❌ Erreur API: " e)], inr JNull).
Proof.
  intros r e.
  assert (H : 400 <= status_code r < 600) by (simpl; lia).
  split; [exact H|]. split.
  - apply (proj1 (api_data_http_error (answering_network r) "transactions"
                    JNull r H)).
    reflexivity.
  - apply (proj2 (api_data_http_error (answering_network r)
                    "transactions/search" (JDict []) r H)).
    reflexivity.
Defined.

(** A response with status 300 is not a 2xx response, and yet its decoded
    body is returned and no error is reported. *)
Lemma api_data_status_300_returns_payload :
  let r := backend_response 300 "Multiple Choices" "transactions"
             ("{" ++ quoted "a" ++ ": 1}") in
  ~ (200 <= status_code r < 300) /\
  get_api_data (answering_network r) "transactions" JNull =
    ([RequestsGet "http://localhost:8000/api/transactions" JNull None],
     inr (JDict [("a", JInt 1)])) /\
  post_api_data (answering_network r) "transactions" (JDict []) =
    ([RequestsPost "http://localhost:8000/api/transactions" (JDict [])],
     inr (JDict [("a", JInt 1)])).
Proof.
  intros r. split; [simpl; lia|]. split; reflexivity.
Qed.

Lemma api_data_success_200 :
  let r := backend_response 200 "OK" "transactions/types"
             ("{" ++ quoted "types" ++ ": [" ++ quoted "PAYMENT" ++ ", "
                ++ quoted "TRANSFER" ++ "]}") in
  let payload := JDict [("types", JList [JStr "PAYMENT"; JStr "TRANSFER"])] in
  200 <= status_code r < 300 /\
  json_loads (text r) = Some payload /\
  get_api_data (answering_network r) "transactions/types" JNull =
    ([RequestsGet "http://localhost:8000/api/transactions/types" JNull None],
     inr payload) /\
  post_api_data (answering_network r) "transactions/types" (JDict []) =
    ([RequestsPost "http://localhost:8000/api/transactions/types" (JDict [])],
     inr payload).
Proof.
  intros r payload.
  assert (H : 200 <= status_code r < 300) by (simpl; lia).
  assert (Hbody : json_loads (text r) = Some payload) by reflexivity.
  split; [exact H|]. split; [exact Hbody|]. split.
  - apply (proj1 (api_data_success (answering_network r) "transactions/types"
                    JNull r payload H Hbody)).
    reflexivity.
  - apply (proj2 (api_data_success (answering_network r) "transactions/types"
                    (JDict []) r payload H Hbody)).
    reflexivity.
Defined.

(** A response with status 200 whose body is not JSON: no payload is
    returned; the decoding error is reported and the result is [None]. *)
Lemma api_data_status_200_not_json :
  let r := backend_response 200 "OK" "stats/overview" "<html>" in
  200 <= status_code r < 300 /\
  json_loads (text r) = None /\
  get_api_data (answering_network r) "stats/overview" JNull =
    ([RequestsGet "http://localhost:8000/api/stats/overview" JNull None;
      StError (TextExn "❌ Erreur API: " (RequestsJSONDecodeError "<html>"))],
     inr JNull) /\
  post_api_data (answering_network r) "stats/overview" (JDict []) =
    ([RequestsPost "http://localhost:8000/api/stats/overview" (JDict []);
      StError (TextExn "❌ Erreur API: " (RequestsJSONDecodeError "<html>"))],
     inr JNull).
Proof.
  intros r. split; [simpl; lia|]. repeat split; reflexivity.
Qed.

(* ================================================================== *)
(** ** The liveness probe: [check_api_health] *)

Section Health.

Variable net : Network.

Let health : string := API_BASE_URL ++ "/system/health".

Lemma check_api_health_run :
  check_api_health net =
    ([RequestsGet health JNull (Some 2)],
     inr (match net_get net health JNull (Some 2) with
          | inl _ => false
          | inr r => status_code r =? 200
          end)).
Proof.
  unfold check_api_health, requests_get. fold health.
  destruct (net_get net health JNull (Some 2)) as [e|r]; reflexivity.
Qed.

(** C6: the probe makes one call, a GET of the health address
    [http://localhost:8000/api/system/health] with timeout 2, and nothing
    else; it never raises; whatever exception the call raises (timeout,
    refused connection, decoding error, anything else) the result is
    [False]; a response whose status is not 2xx gives [False] too. *)
Theorem check_api_health_collapses :
  health = "http://localhost:8000/api/system/health" /\
  events (check_api_health net) = [RequestsGet health JNull (Some 2)] /\
  (exists b : bool, outcome (check_api_health net) = inr b) /\
  (forall e : exn,
     net_get net health JNull (Some 2) = inl e ->
     outcome (check_api_health net) = inr false) /\
  (forall r : Response,
     net_get net health JNull (Some 2) = inr r ->
     ~ (200 <= status_code r < 300) ->
     outcome (check_api_health net) = inr false).
Proof.
  rewrite check_api_health_run. unfold events, outcome. simpl.
  split; [reflexivity|]. split; [reflexivity|]. split; [eauto|]. split.
  - intros e He. now rewrite He.
  - intros r Hr Hst. rewrite Hr.
    destruct (Z.eqb_spec (status_code r) 200) as [H200|]; [lia|reflexivity].
Qed.

(** C10: the probe answers [True] exactly when the call returns a response
    whose status is 200; any other status, 201 and 204 included, gives
    [False]. *)
Theorem check_api_health_only_200 :
  (outcome (check_api_health net) = inr true <->
   exists r : Response,
     net_get net health JNull (Some 2) = inr r /\ status_code r = 200) /\
  (forall r : Response,
     net_get net health JNull (Some 2) = inr r ->
     status_code r <> 200 ->
     outcome (check_api_health net) = inr false).
Proof.
  rewrite check_api_health_run. unfold outcome. simpl. split.
  - destruct (net_get net health JNull (Some 2)) as [e|r].
    + split; [discriminate|]. intros [r [Hr _]]. discriminate.
    + destruct (Z.eqb_spec (status_code r) 200) as [H200|Hne].
      * split; [|reflexivity]. intros _. now exists r.
      * split; [discriminate|]. intros [r' [Hr' H200]].
        injection Hr' as <-. contradiction.
  - intros r Hr Hst. rewrite Hr.
    destruct (Z.eqb_spec (status_code r) 200); [contradiction|reflexivity].
Qed.

End Health.

Lemma check_api_health_unreachable :
  let net := failing_network (ConnectionError "Connection refused") in
  net_get net "http://localhost:8000/api/system/health" JNull (Some 2) =
    inl (ConnectionError "Connection refused") /\
  outcome (check_api_health net) = inr false /\
  outcome (check_api_health (failing_network (Timeout "Read timed out."))) =
    inr false /\
  outcome (check_api_health
             (answering_network
                (backend_response 503 "Service Unavailable" "system/health" "")))
    = inr false.
Proof.
  intros net. split; [reflexivity|]. split; [|split].
  - apply (proj1 (proj2 (proj2 (proj2 (check_api_health_collapses net))))
             (ConnectionError "Connection refused")).
    reflexivity.
  - apply (proj1 (proj2 (proj2 (proj2
             (check_api_health_collapses
                (failing_network (Timeout "Read timed out."))))))
             (Timeout "Read timed out.")).
    reflexivity.
  - apply (proj2 (proj2 (proj2 (proj2
             (check_api_health_collapses
                (answering_network
                   (backend_response 503 "Service Unavailable" "system/health" ""))))))
             (backend_response 503 "Service Unavailable" "system/health" "")).
    + reflexivity.
    + simpl. lia.
Defined.

Lemma check_api_health_201_204 :
  let r201 := backend_response 201 "Created" "system/health" "{}" in
  let r204 := backend_response 204 "No Content" "system/health" "" in
  status_code r201 <> 200 /\ status_code r204 <> 200 /\
  outcome (check_api_health (answering_network r201)) = inr false /\
  outcome (check_api_health (answering_network r204)) = inr false.
Proof.
  intros r201 r204.
  assert (H1 : status_code r201 <> 200) by (simpl; lia).
  assert (H4 : status_code r204 <> 200) by (simpl; lia).
  split; [exact H1|]. split; [exact H4|]. split.
  - apply (proj2 (check_api_health_only_200 (answering_network r201)) r201);
      [reflexivity|exact H1].
  - apply (proj2 (check_api_health_only_200 (answering_network r204)) r204);
      [reflexivity|exact H4].
Defined.

(* ================================================================== *)
(** ** The manual route tester: [test_route] *)

Section TestRoute.

Variable net : Network.
Variables (route_info : dict string) (params_text : string).



End TestRoute.




(* ================================================================== *)
(** ** The dispatcher, case by case *)

Lemma is_error_status_iff (r : Response) :
  is_error_status r = true <-> 400 <= status_code r < 600.
Proof.
  unfold is_error_status. rewrite andb_true_iff, Z.leb_le, Z.ltb_lt. tauto.
Qed.

Lemma raise_for_status_run (r : Response) :
  raise_for_status r =
    if is_error_status r then raise (HTTPError (http_error_msg r) r)
    else ret tt.
Proof.
  destruct (is_error_status r) eqn:Hst.
  - apply raise_for_status_error. now apply is_error_status_iff.
  - apply raise_for_status_ok. intros H. apply is_error_status_iff in H.
    congruence.
Qed.

Lemma get_api_data_run (net : Network) (endpoint : string) (params : json) :
  get_api_data net endpoint params =
    api_data_after (RequestsGet (API_BASE_URL ++ "/" ++ endpoint) params None)
      (net_get net (API_BASE_URL ++ "/" ++ endpoint) params None).
Proof.
  unfold get_api_data, requests_get, api_data_after.
  destruct (net_get net (API_BASE_URL ++ "/" ++ endpoint) params None)
    as [e|r].
  - destruct e; reflexivity.
  - cbv beta iota delta [bind emit ret].
    rewrite raise_for_status_run. unfold response_json.
    destruct (is_error_status r); [reflexivity|].
    destruct (json_loads (text r)); reflexivity.
Qed.

Lemma post_api_data_run (net : Network) (endpoint : string) (data : json) :
  post_api_data net endpoint data =
    api_data_after (RequestsPost (API_BASE_URL ++ "/" ++ endpoint) data)
      (net_post net (API_BASE_URL ++ "/" ++ endpoint) data).
Proof.
  unfold post_api_data, requests_post, api_data_after.
  destruct (net_post net (API_BASE_URL ++ "/" ++ endpoint) data) as [e|r].
  - destruct e; reflexivity.
  - cbv beta iota delta [bind emit ret].
    rewrite raise_for_status_run. unfold response_json.
    destruct (is_error_status r); [reflexivity|].
    destruct (json_loads (text r)); reflexivity.
Qed.

Lemma api_data_after_requests (call : event) (answer : exn + Response) :
  is_request call = true ->
  requests_of (api_data_after call answer) = [call].
Proof.
  intros Hcall. unfold requests_of, api_data_after.
  destruct answer as [e|r];
    [destruct (is_RequestException e)
    |destruct (is_error_status r); [|destruct (json_loads (text r))]];
    simpl; now rewrite Hcall.
Qed.

Section DispatcherCases.

Variable net : Network.
Variables (endpoint : string) (params : json).

Let target : string := API_BASE_URL ++ "/" ++ endpoint.

(** X1: when [requests] raises a [RequestException] (refused connection,
    timeout, ...), GET and POST alike report it once, with its text, and
    return [None]. *)
Theorem api_data_transport_failure (e : exn) :
  is_RequestException e = true ->
  (net_get net target params None = inl e ->
   get_api_data net endpoint params =
     ([RequestsGet target params None;
       StError (TextExn "❌ Erreur API: " e)], inr JNull)) /\
  (net_post net target params = inl e ->
   post_api_data net endpoint params =
     ([RequestsPost target params;
       StError (TextExn "❌ Erreur API: " e)], inr JNull)).
Proof.
  intros He. split; intros Hnet.
  - rewrite get_api_data_run. fold target. rewrite Hnet.
    unfold api_data_after. now rewrite He.
  - rewrite post_api_data_run. fold target. rewrite Hnet.
    unfold api_data_after. now rewrite He.
Qed.

(** X2: an exception leaves the dispatcher exactly when [requests] raised
    it and it is not a [RequestException]; no [RequestException] ever
    escapes. *)
Theorem api_data_raises_iff (e : exn) :
  (outcome (get_api_data net endpoint params) = inl e <->
   net_get net target params None = inl e /\ is_RequestException e = false) /\
  (outcome (post_api_data net endpoint params) = inl e <->
   net_post net target params = inl e /\ is_RequestException e = false).
Proof.
  rewrite get_api_data_run, post_api_data_run. fold target.
  unfold api_data_after. split.
  - destruct (net_get net target params None) as [e'|r].
    + destruct (is_RequestException e') eqn:He'; simpl; split.
      * discriminate.
      * intros [H Hcls]. injection H as ->. congruence.
      * intros H. injection H as ->. now split.
      * intros [H _]. now injection H as ->.
    + destruct (is_error_status r); [|destruct (json_loads (text r))];
        simpl; split; try discriminate; intros [H _]; discriminate.
  - destruct (net_post net target params) as [e'|r].
    + destruct (is_RequestException e') eqn:He'; simpl; split.
      * discriminate.
      * intros [H Hcls]. injection H as ->. congruence.
      * intros H. injection H as ->. now split.
      * intros [H _]. now injection H as ->.
    + destruct (is_error_status r); [|destruct (json_loads (text r))];
        simpl; split; try discriminate; intros [H _]; discriminate.
Qed.

(** X3: whatever happens, a call of the dispatcher makes exactly one
    request, the GET without timeout or the POST: nothing is retried. *)
Theorem api_data_one_request :
  requests_of (get_api_data net endpoint params) =
    [RequestsGet target params None] /\
  requests_of (post_api_data net endpoint params) =
    [RequestsPost target params].
Proof.
  rewrite get_api_data_run, post_api_data_run. fold target.
  split; apply api_data_after_requests; reflexivity.
Qed.

(** X4: the dispatcher returns a value without reporting anything exactly
    when the response has a status outside 400..599 (2xx, but also 1xx, 3xx
    or 600 and more) and a body that decodes to that value. *)
Theorem api_data_silent_success_iff (v : json) :
  (get_api_data net endpoint params = ([RequestsGet target params None], inr v)
   <-> exists r : Response,
         net_get net target params None = inr r /\
         ~ (400 <= status_code r < 600) /\ json_loads (text r) = Some v) /\
  (post_api_data net endpoint params = ([RequestsPost target params], inr v)
   <-> exists r : Response,
         net_post net target params = inr r /\
         ~ (400 <= status_code r < 600) /\ json_loads (text r) = Some v).
Proof.
  rewrite get_api_data_run, post_api_data_run. fold target.
  unfold api_data_after. split.
  - destruct (net_get net target params None) as [e|r].
    + split; [|intros [r [H _]]; discriminate].
      destruct (is_RequestException e); discriminate.
    + destruct (is_error_status r) eqn:Hst.
      * split; [discriminate|]. intros [r' [H [Hok _]]]. injection H as <-.
        exfalso. apply Hok. now apply is_error_status_iff.
      * assert (Hok : ~ (400 <= status_code r < 600)).
        { intros H. apply is_error_status_iff in H. congruence. }
        destruct (json_loads (text r)) as [v'|] eqn:Hbody.
        -- split.
           ++ intros H. injection H as ->. now exists r.
           ++ intros [r' [H [_ Hv]]]. injection H as <-. congruence.
        -- split; [discriminate|].
           intros [r' [H [_ Hv]]]. injection H as <-. congruence.
  - destruct (net_post net target params) as [e|r].
    + split; [|intros [r [H _]]; discriminate].
      destruct (is_RequestException e); discriminate.
    + destruct (is_error_status r) eqn:Hst.
      * split; [discriminate|]. intros [r' [H [Hok _]]]. injection H as <-.
        exfalso. apply Hok. now apply is_error_status_iff.
      * assert (Hok : ~ (400 <= status_code r < 600)).
        { intros H. apply is_error_status_iff in H. congruence. }
        destruct (json_loads (text r)) as [v'|] eqn:Hbody.
        -- split.
           ++ intros H. injection H as ->. now exists r.
           ++ intros [r' [H [_ Hv]]]. injection H as <-. congruence.
        -- split; [discriminate|].
           intros [r' [H [_ Hv]]]. injection H as <-. congruence.
Qed.

(** X5: a result other than [None] is always the decoded body of a
    response whose status is outside 400..599, and nothing was reported. *)
Theorem api_data_result_sound (v : json) :
  v <> JNull ->
  (outcome (get_api_data net endpoint params) = inr v ->
   events (get_api_data net endpoint params) = [RequestsGet target params None]
   /\ exists r : Response,
        net_get net target params None = inr r /\
        ~ (400 <= status_code r < 600) /\ json_loads (text r) = Some v) /\
  (outcome (post_api_data net endpoint params) = inr v ->
   events (post_api_data net endpoint params) = [RequestsPost target params]
   /\ exists r : Response,
        net_post net target params = inr r /\
        ~ (400 <= status_code r < 600) /\ json_loads (text r) = Some v).
Proof.
  intros Hv. rewrite get_api_data_run, post_api_data_run. fold target.
  unfold api_data_after. split.
  - destruct (net_get net target params None) as [e|r].
    + destruct (is_RequestException e); simpl; intros H;
        [injection H as <-; contradiction|discriminate].
    + destruct (is_error_status r) eqn:Hst; simpl.
      * intros H. injection H as <-. contradiction.
      * destruct (json_loads (text r)) as [v'|] eqn:Hbody; simpl; intros H;
          injection H as <-; [|contradiction].
        split; [reflexivity|]. exists r. repeat split; trivial.
        intros Herr. apply is_error_status_iff in Herr. congruence.
  - destruct (net_post net target params) as [e|r].
    + destruct (is_RequestException e); simpl; intros H;
        [injection H as <-; contradiction|discriminate].
    + destruct (is_error_status r) eqn:Hst; simpl.
      * intros H. injection H as <-. contradiction.
      * destruct (json_loads (text r)) as [v'|] eqn:Hbody; simpl; intros H;
          injection H as <-; [|contradiction].
        split; [reflexivity|]. exists r. repeat split; trivial.
        intros Herr. apply is_error_status_iff in Herr. congruence.
Qed.

(** X6: a response whose status is outside 400..599 but whose body does
    not decode as JSON is reported as an error and gives [None], like a
    transport failure. *)
Theorem api_data_undecodable_body (r : Response) :
  ~ (400 <= status_code r < 600) ->
  json_loads (text r) = None ->
  (net_get net target params None = inr r ->
   get_api_data net endpoint params =
     ([RequestsGet target params None;
       StError (TextExn "❌ Erreur API: " (RequestsJSONDecodeError (text r)))],
      inr JNull)) /\
  (net_post net target params = inr r ->
   post_api_data net endpoint params =
     ([RequestsPost target params;
       StError (TextExn "❌ Erreur API: " (RequestsJSONDecodeError (text r)))],
      inr JNull)).
Proof.
  intros Hok Hbody.
  assert (Hst : is_error_status r = false).
  { destruct (is_error_status r) eqn:H; [|reflexivity].
    apply is_error_status_iff in H. contradiction. }
  split; intros Hnet.
  - rewrite get_api_data_run. fold target. rewrite Hnet.
    unfold api_data_after. now rewrite Hst, Hbody.
  - rewrite post_api_data_run. fold target. rewrite Hnet.
    unfold api_data_after. now rewrite Hst, Hbody.
Qed.

End DispatcherCases.

(* ================================================================== *)
(** ** The route tester, case by case *)

Lemma test_route_after_run (call : M json) :
  try_except
    (result <- call ;;
     if truthy result
     then (emit (StSuccess (Text "✅ Requête réussie"))) ;;;
          (emit (StJson result)) ;;;
          emit (StCode result)
     else ret tt)
    [(is_JSONDecodeError, fun _ => emit (StError (Text "❌ JSON invalide")));
     (is_Exception, fun e => emit (StError (TextExn "❌ Erreur: " e)))] =
  test_route_after call.
Proof.
  destruct call as [log [e|result]]; unfold test_route_after.
  - unfold try_except, bind. simpl.
    destruct (is_JSONDecodeError e); [reflexivity|].
    destruct (is_Exception e); reflexivity.
  - unfold shown_result. simpl. destruct (truthy result); reflexivity.
Qed.

Lemma test_route_run (net : Network) (route_info : dict string)
    (params_text : string) :
  test_route net route_info params_text =
    match json_loads params_text with
    | None => ([StError (Text "❌ JSON invalide")], inr tt)
    | Some params =>
        match dict_get "method" route_info with
        | None =>
            ([StError (TextExn "❌ Erreur: " (KeyError "method"))], inr tt)
        | Some method =>
            match dict_get "endpoint" route_info with
            | None =>
                ([StError (TextExn "❌ Erreur: " (KeyError "endpoint"))],
                 inr tt)
            | Some endpoint =>
                test_route_after (dispatch net method endpoint params)
            end
        end
    end.
Proof.
  unfold test_route, json_loads_M, getitem.
  destruct (json_loads params_text) as [params|]; [|reflexivity].
  rewrite bind_ret_l.
  destruct (dict_get "method" route_info) as [method|]; [|reflexivity].
  rewrite bind_ret_l.
  destruct (dict_get "endpoint" route_info) as [endpoint|].
  - rewrite !bind_ret_l. rewrite <- test_route_after_run. unfold dispatch.
    destruct (String.eqb method "GET"); reflexivity.
  - destruct (String.eqb method "GET"); reflexivity.
Qed.

Lemma requests_of_shown (log : list event) (result : json) :
  filter is_request (log ++ shown_result result) = filter is_request log.
Proof.
  rewrite filter_app. unfold shown_result.
  destruct (truthy result); simpl; now rewrite app_nil_r.
Qed.

Lemma dispatch_one_request (net : Network) (method endpoint : string)
    (params : json) :
  requests_of (dispatch net method endpoint params) =
    [if String.eqb method "GET"
     then RequestsGet (API_BASE_URL ++ "/" ++ endpoint) params None
     else RequestsPost (API_BASE_URL ++ "/" ++ endpoint) params].
Proof.
  unfold dispatch. destruct (String.eqb method "GET").
  - rewrite get_api_data_run. now apply api_data_after_requests.
  - rewrite post_api_data_run. now apply api_data_after_requests.
Qed.



Lemma dispatch_raises (net : Network) (method endpoint : string)
    (params : json) (e : exn) :
  outcome (dispatch net method endpoint params) = inl e ->
  is_RequestException e = false.
Proof.
  unfold dispatch.
  destruct (String.eqb method "GET");
    [rewrite get_api_data_run|rewrite post_api_data_run];
    unfold api_data_after;
    match goal with
    | |- context [match ?answer with _ => _ end] =>
        destruct answer as [e'|r]
    end.
  - destruct (is_RequestException e') eqn:He'; simpl; [discriminate|].
    intros H. now injection H as <-.
  - destruct (is_error_status r); [|destruct (json_loads (text r))];
      discriminate.
  - destruct (is_RequestException e') eqn:He'; simpl; [discriminate|].
    intros H. now injection H as <-.
  - destruct (is_error_status r); [|destruct (json_loads (text r))];
      discriminate.
Qed.

Section RouteTesterCases.

Variable net : Network.
Variables (route_info : dict string) (params_text : string).


(** X8: no [Exception] ever leaves the action: whatever the route, the
    text and the network, it ends normally, or with an exception that is
    not an [Exception] (such as [KeyboardInterrupt]) raised by
    [requests]. *)
Theorem test_route_catches_exceptions (e : exn) :
  outcome (test_route net route_info params_text) = inl e ->
  is_Exception e = false.
Proof.
  rewrite test_route_run.
  destruct (json_loads params_text) as [params|]; [|discriminate].
  destruct (dict_get "method" route_info) as [method|]; [|discriminate].
  destruct (dict_get "endpoint" route_info) as [endpoint|]; [|discriminate].
  destruct (dispatch net method endpoint params) as [log [e'|v]];
    unfold test_route_after; [|discriminate].
  destruct (is_JSONDecodeError e'); [discriminate|].
  destruct (is_Exception e') eqn:He'; [discriminate|].
  simpl. intros H. now injection H as <-.
Qed.

(** X9: the action makes at most one request; it makes none when the text
    does not decode or the route lacks its method or its endpoint. *)
Theorem test_route_at_most_one_request :
  (List.length (requests_of (test_route net route_info params_text)) <= 1)%nat /\
  (json_loads params_text = None ->
   requests_of (test_route net route_info params_text) = []) /\
  (dict_get "method" route_info = None \/
   dict_get "endpoint" route_info = None ->
   requests_of (test_route net route_info params_text) = []).
Proof.
  rewrite test_route_run.
  assert (Hone : forall method endpoint params,
             List.length (requests_of
                       (test_route_after (dispatch net method endpoint params)))
             = 1%nat).
  { intros method endpoint params.
    pose proof (dispatch_one_request net method endpoint params) as Hreq.
    unfold requests_of in *.
    destruct (dispatch net method endpoint params) as [log [e|v]];
      unfold test_route_after; simpl in *.
    - destruct (is_JSONDecodeError e);
        [|destruct (is_Exception e)]; simpl;
        rewrite ?filter_app, ?Hreq; reflexivity.
    - rewrite requests_of_shown, Hreq. reflexivity. }
  destruct (json_loads params_text) as [params|].
  2:{ repeat split; simpl; auto. }
  destruct (dict_get "method" route_info) as [method|].
  2:{ repeat split; simpl; auto. }
  destruct (dict_get "endpoint" route_info) as [endpoint|].
  2:{ repeat split; simpl; auto. }
  split; [rewrite Hone; lia|]. split; [discriminate|].
  intros [H|H]; discriminate.
Qed.


End RouteTesterCases.


(* ================================================================== *)
(** ** The head of the page *)

Section PageHead.

Variable net : Network.

Let health : string := API_BASE_URL ++ "/system/health".
Let metadata_url : string := API_BASE_URL ++ "/system/metadata".
Let probe : script_event := Core (RequestsGet health JNull (Some 2)).
Let connected : script_event :=
  Core (StSuccess (Text "✅ API connectée et fonctionnelle")).
Let base_url : script_event :=
  StInfo "🔗 Base URL: `http://localhost:8000/api`".

(** What the head of the page does after a successful probe, by the
    computation of the dispatcher for the metadata. *)
Let after_probe (call : M json) : Script unit :=
  match call with
  | (log, inl e) => ((probe :: connected :: map Core log)%list, inl (Raised e))
  | (log, inr metadata) =>
      if truthy metadata then
        match metadata with
        | JDict items =>
            ((probe :: connected :: map Core log
              ++ [StInfoValue "📦 Version: "
                    match dict_get "version" items with
                    | Some v => v
                    | None => JStr "N/A"
                    end;
                  base_url])%list, inr tt)
        | _ =>
            ((probe :: connected :: map Core log)%list,
             inl (AttributeError
                    ("'" ++ type_name metadata
                     ++ "' object has no attribute 'get'")))
        end
      else ((probe :: connected :: map Core log ++ [base_url])%list, inr tt)
  end.

Lemma page_head_run :
  page_head net =
    if match net_get net health JNull (Some 2) with
       | inl _ => false
       | inr r => status_code r =? 200
       end
    then after_probe (get_api_data net "system/metadata" JNull)
    else
      ([probe;
        Core (StError (Text "❌ API non accessible. Assurez-vous que l'API tourne sur http://localhost:8000"));
        StInfo "💡 Lancez l'API avec : `uvicorn banking_api.main:app --reload`"],
       inl ScriptStop).
Proof.
  unfold page_head. rewrite check_api_health_run. fold health.
  destruct (match net_get net health JNull (Some 2) with
            | inl _ => false
            | inr r => status_code r =? 200
            end); [|reflexivity].
  destruct (get_api_data net "system/metadata" JNull) as [log [e|metadata]];
    [reflexivity|].
  unfold after_probe, script_bind, lift, get_method, script_ret,
    script_emit, script_raise.
  destruct (truthy metadata) eqn:Htruthy.
  - destruct metadata as [|b|n|x|s|l|items]; try discriminate Htruthy;
      try (simpl; rewrite ?app_nil_r; reflexivity).
    destruct (dict_get "version" items); simpl;
      rewrite <- ?app_assoc; reflexivity.
  - simpl. rewrite <- ?app_assoc. reflexivity.
Qed.

(** X15: when the probe does not get a response with status 200 (an
    exception, or any other status), the head of the page reports that the
    API cannot be reached and stops the script: whatever follows in the
    script is not run, so that the probe is the only request made. *)
Theorem page_head_stops_when_unhealthy (B : Type) (rest : unit -> Script B) :
  (forall r : Response,
     net_get net health JNull (Some 2) = inr r -> status_code r <> 200) ->
  script_bind (page_head net) rest =
    ([probe;
      Core (StError (Text "❌ API non accessible. Assurez-vous que l'API tourne sur http://localhost:8000"));
      StInfo "💡 Lancez l'API avec : `uvicorn banking_api.main:app --reload`"],
     inl ScriptStop) /\
  script_requests (script_bind (page_head net) rest) = [probe].
Proof.
  intros Hdown. rewrite page_head_run.
  destruct (net_get net health JNull (Some 2)) as [e|r] eqn:Hnet.
  - split; reflexivity.
  - destruct (Z.eqb_spec (status_code r) 200) as [H200|_].
    + exfalso. now apply (Hdown r).
    + split; reflexivity.
Qed.

(** X16: when the probe gets a response with status 200, the head of the
    page makes exactly one more request, the GET of the metadata without
    timeout, and never stops the script. *)
Theorem page_head_healthy_requests (r : Response) :
  net_get net health JNull (Some 2) = inr r ->
  status_code r = 200 ->
  script_requests (page_head net) =
    [probe; Core (RequestsGet metadata_url JNull None)] /\
  snd (page_head net) <> inl ScriptStop.
Proof.
  intros Hnet H200. rewrite page_head_run, Hnet, H200. simpl Z.eqb. cbv iota.
  assert (Hreq : requests_of (get_api_data net "system/metadata" JNull) =
                 [RequestsGet metadata_url JNull None]).
  { rewrite get_api_data_run. now apply api_data_after_requests. }
  unfold requests_of, events in Hreq.
  assert (Hmap : forall log : list event,
             filter is_script_request (map Core log) =
             map Core (filter is_request log)).
  { induction log as [|ev log IH]; [reflexivity|]. simpl.
    destruct (is_request ev); simpl; now rewrite IH. }
  destruct (get_api_data net "system/metadata" JNull) as [log [e|metadata]];
    simpl in Hreq; unfold after_probe, script_requests.
  - split; [|discriminate]. simpl. now rewrite Hmap, Hreq.
  - destruct (truthy metadata);
      [destruct metadata as [| | | | | |items]|];
      (split; [|discriminate]); simpl;
      rewrite ?filter_app, Hmap, Hreq; reflexivity.
Qed.

(** X17: after a successful probe, when the metadata are a non-empty
    object, the head of the page shows their entry [version], or "N/A"
    when there is none, then the base address, and ends normally. *)
Theorem page_head_version (r : Response) (items : dict json) :
  net_get net health JNull (Some 2) = inr r ->
  status_code r = 200 ->
  outcome (get_api_data net "system/metadata" JNull) = inr (JDict items) ->
  items <> [] ->
  page_head net =
    ((probe :: connected
      :: map Core (events (get_api_data net "system/metadata" JNull))
      ++ [StInfoValue "📦 Version: "
            match dict_get "version" items with
            | Some v => v
            | None => JStr "N/A"
            end;
          base_url])%list, inr tt).
Proof.
  intros Hnet H200 Hmeta Hitems.
  rewrite page_head_run, Hnet, H200. simpl Z.eqb. cbv iota.
  destruct (get_api_data net "system/metadata" JNull) as [log [e|metadata]];
    simpl in Hmeta; [discriminate|].
  injection Hmeta as ->. unfold after_probe. simpl.
  destruct items; [contradiction|reflexivity].
Qed.

(** X18: after a successful probe, when the metadata cannot be had (the
    dispatcher has reported a failure and returned [None]) or are empty,
    no version is shown; the head of the page still shows the base address
    and ends normally, so that the failure does not stop the page. *)
Theorem page_head_without_metadata (r : Response) (metadata : json) :
  net_get net health JNull (Some 2) = inr r ->
  status_code r = 200 ->
  outcome (get_api_data net "system/metadata" JNull) = inr metadata ->
  truthy metadata = false ->
  page_head net =
    ((probe :: connected
      :: map Core (events (get_api_data net "system/metadata" JNull))
      ++ [base_url])%list, inr tt).
Proof.
  intros Hnet H200 Hmeta Hfalsy.
  rewrite page_head_run, Hnet, H200. simpl Z.eqb. cbv iota.
  destruct (get_api_data net "system/metadata" JNull) as [log [e|v]];
    simpl in Hmeta; [discriminate|].
  injection Hmeta as ->. unfold after_probe. now rewrite Hfalsy.
Qed.

(** X19: after a successful probe, metadata that are true as a condition
    but are not an object (a non-empty list or string, a number, [True])
    end the script with an [AttributeError], since only an object has the
    method [get]; the base address is not shown. *)
Theorem page_head_metadata_not_object (r : Response) (metadata : json) :
  net_get net health JNull (Some 2) = inr r ->
  status_code r = 200 ->
  outcome (get_api_data net "system/metadata" JNull) = inr metadata ->
  truthy metadata = true ->
  is_dict metadata = false ->
  page_head net =
    ((probe :: connected
      :: map Core (events (get_api_data net "system/metadata" JNull)))%list,
     inl (AttributeError
            ("'" ++ type_name metadata ++ "' object has no attribute 'get'"))).
Proof.
  intros Hnet H200 Hmeta Htruthy Hdict.
  rewrite page_head_run, Hnet, H200. simpl Z.eqb. cbv iota.
  destruct (get_api_data net "system/metadata" JNull) as [log [e|v]];
    simpl in Hmeta; [discriminate|].
  injection Hmeta as ->. unfold after_probe. rewrite Htruthy.
  destruct metadata; try reflexivity. discriminate.
Qed.

End PageHead.

(* ================================================================== *)
(** ** Runs of the dispatcher, of the route tester and of the head of the
       page *)

Lemma api_data_transport_failure_refused :
  let e := ConnectionError "Connection refused" in
  let net := failing_network e in
  is_RequestException e = true /\
  get_api_data net "transactions" JNull =
    ([RequestsGet "http://localhost:8000/api/transactions" JNull None;
      StError (TextExn "❌ Erreur API: " e)], inr JNull) /\
  post_api_data net "transactions/search" (JDict []) =
    ([RequestsPost "http://localhost:8000/api/transactions/search" (JDict []);
      StError (TextExn "❌ Erreur API: " e)], inr JNull).
Proof.
  intros e net.
  assert (He : is_RequestException e = true) by reflexivity.
  split; [exact He|]. split.
  - apply (proj1 (api_data_transport_failure net "transactions" JNull e He)).
    reflexivity.
  - apply (proj2 (api_data_transport_failure net "transactions/search"
                    (JDict []) e He)).
    reflexivity.
Defined.

Lemma api_data_result_sound_types :
  let r := backend_response 200 "OK" "transactions/types"
             ("{" ++ quoted "types" ++ ": [" ++ quoted "PAYMENT" ++ "]}") in
  let net := answering_network r in
  let v := JDict [("types", JList [JStr "PAYMENT"])] in
  v <> JNull /\
  outcome (get_api_data net "transactions/types" JNull) = inr v /\
  events (get_api_data net "transactions/types" JNull) =
    [RequestsGet "http://localhost:8000/api/transactions/types" JNull None] /\
  exists r' : Response,
    net_get net "http://localhost:8000/api/transactions/types" JNull None
      = inr r' /\
    ~ (400 <= status_code r' < 600) /\ json_loads (text r') = Some v.
Proof.
  intros r net v.
  assert (Hv : v <> JNull) by discriminate.
  assert (Hout : outcome (get_api_data net "transactions/types" JNull) = inr v)
    by reflexivity.
  split; [exact Hv|]. split; [exact Hout|].
  exact (proj1 (api_data_result_sound net "transactions/types" JNull v Hv)
           Hout).
Defined.

Lemma api_data_undecodable_body_html :
  let r := backend_response 200 "OK" "stats/daily" "<html>" in
  let net := answering_network r in
  ~ (400 <= status_code r < 600) /\
  json_loads (text r) = None /\
  get_api_data net "stats/daily" JNull =
    ([RequestsGet "http://localhost:8000/api/stats/daily" JNull None;
      StError (TextExn "❌ Erreur API: " (RequestsJSONDecodeError "<html>"))],
     inr JNull).
Proof.
  intros r net.
  assert (Hst : ~ (400 <= status_code r < 600)) by (simpl; lia).
  assert (Hbody : json_loads (text r) = None) by reflexivity.
  split; [exact Hst|]. split; [exact Hbody|].
  apply (proj1 (api_data_undecodable_body net "stats/daily" JNull r Hst Hbody)).
  reflexivity.
Defined.


Lemma test_route_lets_interrupt_through :
  let net := failing_network KeyboardInterrupt in
  outcome (test_route net (route "GET" "transactions") "{}")
    = inl KeyboardInterrupt /\
  is_Exception KeyboardInterrupt = false.
Proof.
  intros net.
  assert (Hout : outcome (test_route net (route "GET" "transactions") "{}")
                 = inl KeyboardInterrupt) by reflexivity.
  split; [exact Hout|].
  exact (test_route_catches_exceptions net (route "GET" "transactions") "{}"
           KeyboardInterrupt Hout).
Defined.

Lemma test_route_no_request_for_bad_text :
  let net := answering_network (backend_response 200 "OK" "transactions" "{}") in
  json_loads "{invalid" = None /\
  requests_of (test_route net (route "GET" "transactions") "{invalid") = [] /\
  requests_of (test_route net [("method", "GET")] "{}") = [].
Proof.
  intros net.
  assert (Hnone : json_loads "{invalid" = None) by reflexivity.
  split; [exact Hnone|]. split.
  - exact (proj1 (proj2 (test_route_at_most_one_request net
                           (route "GET" "transactions") "{invalid")) Hnone).
  - exact (proj2 (proj2 (test_route_at_most_one_request net
                           [("method", "GET")] "{}")) (or_intror eq_refl)).
Defined.



Lemma page_head_stops_when_refused :
  let net := failing_network (ConnectionError "Connection refused") in
  let rest := fun _ : unit => lift (get_api_data net "stats/overview" JNull) in
  (forall r : Response,
     net_get net "http://localhost:8000/api/system/health" JNull (Some 2)
       = inr r -> status_code r <> 200) /\
  script_requests (script_bind (page_head net) rest) =
    [Core (RequestsGet "http://localhost:8000/api/system/health" JNull
             (Some 2))].
Proof.
  intros net rest.
  assert (Hdown : forall r : Response,
             net_get net "http://localhost:8000/api/system/health" JNull
               (Some 2) = inr r -> status_code r <> 200)
    by (intros r H; discriminate H).
  split; [exact Hdown|].
  exact (proj2 (page_head_stops_when_unhealthy net json rest Hdown)).
Defined.

Lemma page_head_healthy_requests_ok :
  let r := backend_response 200 "OK" "system/health"
             ("{" ++ quoted "version" ++ ": " ++ quoted "1.0.0" ++ "}") in
  let net := answering_network r in
  status_code r = 200 /\
  script_requests (page_head net) =
    [Core (RequestsGet "http://localhost:8000/api/system/health" JNull (Some 2));
     Core (RequestsGet "http://localhost:8000/api/system/metadata" JNull None)]
  /\ snd (page_head net) <> inl ScriptStop.
Proof.
  intros r net. split; [reflexivity|].
  exact (page_head_healthy_requests net r eq_refl eq_refl).
Defined.

Lemma page_head_version_shown :
  let r := backend_response 200 "OK" "system/health"
             ("{" ++ quoted "version" ++ ": " ++ quoted "1.0.0" ++ "}") in
  let r' := backend_response 200 "OK" "system/health"
              ("{" ++ quoted "status" ++ ": " ++ quoted "ok" ++ "}") in
  snd (page_head (answering_network r)) = inr tt /\
  In (StInfoValue "📦 Version: " (JStr "1.0.0"))
     (fst (page_head (answering_network r))) /\
  In (StInfoValue "📦 Version: " (JStr "N/A"))
     (fst (page_head (answering_network r'))).
Proof.
  intros r r'.
  rewrite (page_head_version (answering_network r) r
             [("version", JStr "1.0.0")] eq_refl eq_refl eq_refl)
    by discriminate.
  rewrite (page_head_version (answering_network r') r'
             [("status", JStr "ok")] eq_refl eq_refl eq_refl)
    by discriminate.
  split; [reflexivity|]. split; simpl; tauto.
Defined.

Lemma page_head_without_metadata_refused :
  let r := backend_response 200 "OK" "system/health" "{}" in
  let e := ConnectionError "Connection refused" in
  let net :=
    {| net_get := fun url _ _ =>
         if String.eqb url "http://localhost:8000/api/system/health"
         then inr r else inl e;
       net_post := fun _ _ => inl e |} in
  outcome (get_api_data net "system/metadata" JNull) = inr JNull /\
  page_head net =
    ([Core (RequestsGet "http://localhost:8000/api/system/health" JNull
              (Some 2));
      Core (StSuccess (Text "✅ API connectée et fonctionnelle"));
      Core (RequestsGet "http://localhost:8000/api/system/metadata" JNull None);
      Core (StError (TextExn "❌ Erreur API: " e));
      StInfo "🔗 Base URL: `http://localhost:8000/api`"], inr tt).
Proof.
  intros r e net. split; [reflexivity|].
  exact (page_head_without_metadata net r JNull eq_refl eq_refl eq_refl eq_refl).
Defined.

Lemma page_head_metadata_list :
  let r := backend_response 200 "OK" "system/health" "[1]" in
  let net := answering_network r in
  outcome (get_api_data net "system/metadata" JNull) = inr (JList [JInt 1]) /\
  snd (page_head net) =
    inl (AttributeError "'list' object has no attribute 'get'").
Proof.
  intros r net. split; [reflexivity|].
  rewrite (page_head_metadata_not_object net r (JList [JInt 1])
             eq_refl eq_refl eq_refl eq_refl eq_refl).
  reflexivity.
Defined.

(* ================================================================== *)
(** ** Filter composition: what a request tells of the selection *)

Lemma search_data_lookup (search_type fraud_search : string)
    (amount_min_search amount_max_search : float) :
  let body := search_data search_type fraud_search
                amount_min_search amount_max_search in
  dict_get "type" body =
    (if String.eqb search_type "Tous" then None else Some (JStr search_type)) /\
  dict_get "isFraud" body =
    (if String.eqb fraud_search "Oui" then Some (JInt 1)
     else if String.eqb fraud_search "Non" then Some (JInt 0)
     else None) /\
  dict_get "amount_range" body =
    (if gt0 amount_min_search || gt0 amount_max_search
     then Some (JList
            [ if gt0 amount_min_search then JFloat amount_min_search
              else JInt 0;
              if gt0 amount_max_search then JFloat amount_max_search
              else JInt 999999999 ])
     else None).
Proof.
  unfold search_data. split_filters; repeat split; reflexivity.
Qed.

Lemma transactions_params_lookup (page limit : Z)
    (selected_type fraud_filter : string) (min_amount max_amount : float) :
  let params := transactions_params page limit selected_type fraud_filter
                  min_amount max_amount in
  dict_get "page" params = Some (JInt page) /\
  dict_get "limit" params = Some (JInt limit) /\
  dict_get "type" params =
    (if String.eqb selected_type "Tous" then None
     else Some (JStr selected_type)) /\
  dict_get "isFraud" params =
    (if String.eqb fraud_filter "Frauduleuses" then Some (JInt 1)
     else if String.eqb fraud_filter "Non frauduleuses" then Some (JInt 0)
     else None) /\
  dict_get "min_amount" params =
    (if gt0 min_amount then Some (JFloat min_amount) else None) /\
  dict_get "max_amount" params =
    (if gt0 max_amount then Some (JFloat max_amount) else None).
Proof.
  unfold transactions_params. split_filters; repeat split; reflexivity.
Qed.

(** Two selected types give the same [type] entry only when they are the
    same type. *)
Lemma type_entry_injective (t t' : string) :
  (if String.eqb t "Tous" then None else Some (JStr t)) =
  (if String.eqb t' "Tous" then None else Some (JStr t')) ->
  t = t'.
Proof.
  destruct (String.eqb_spec t "Tous") as [->|Ht],
           (String.eqb_spec t' "Tous") as [->|Ht'];
    intros H; try discriminate; [reflexivity|now injection H].
Qed.

(** Two entries of a fraud select box give the same [isFraud] entry only
    when both are the fraud entry, both the non-fraud entry, or neither. *)
Lemma fraud_entry_injective (yes no f f' : string) :
  (if String.eqb f yes then Some (JInt 1)
   else if String.eqb f no then Some (JInt 0) else None) =
  (if String.eqb f' yes then Some (JInt 1)
   else if String.eqb f' no then Some (JInt 0) else None) ->
  String.eqb f yes = String.eqb f' yes /\
  (String.eqb f yes = false -> String.eqb f no = String.eqb f' no).
Proof.
  destruct (String.eqb f yes), (String.eqb f' yes),
           (String.eqb f no), (String.eqb f' no);
    intros H; try discriminate; split; intros; congruence.
Qed.

Lemma amount_entry_injective (x x' : float) :
  (if gt0 x then Some (JFloat x) else None) =
  (if gt0 x' then Some (JFloat x') else None) ->
  gt0 x = gt0 x' /\ (gt0 x = true -> x = x').
Proof.
  destruct (gt0 x), (gt0 x'); intros H; try discriminate;
    split; trivial; try discriminate.
  intros _. now injection H.
Qed.

(** X12: the listing parameters tell the selection: two selections that
    give the same parameters have the same page, limit and type, the same
    kind of fraud entry (fraud, non-fraud or neither), and the same
    minimum and maximum as far as these are strictly positive (an amount
    that is not positive is not sent, so it cannot be told). *)
Theorem transactions_params_injective (page limit page' limit' : Z)
    (selected_type fraud_filter selected_type' fraud_filter' : string)
    (min_amount max_amount min_amount' max_amount' : float) :
  transactions_params page limit selected_type fraud_filter
    min_amount max_amount =
  transactions_params page' limit' selected_type' fraud_filter'
    min_amount' max_amount' ->
  page = page' /\ limit = limit' /\ selected_type = selected_type' /\
  (String.eqb fraud_filter "Frauduleuses" =
   String.eqb fraud_filter' "Frauduleuses") /\
  (String.eqb fraud_filter "Frauduleuses" = false ->
   String.eqb fraud_filter "Non frauduleuses" =
   String.eqb fraud_filter' "Non frauduleuses") /\
  gt0 min_amount = gt0 min_amount' /\
  (gt0 min_amount = true -> min_amount = min_amount') /\
  gt0 max_amount = gt0 max_amount' /\
  (gt0 max_amount = true -> max_amount = max_amount').
Proof.
  intros Heq.
  pose proof (transactions_params_lookup page limit selected_type fraud_filter
                min_amount max_amount) as L.
  pose proof (transactions_params_lookup page' limit' selected_type'
                fraud_filter' min_amount' max_amount') as L'.
  cbv zeta in L, L'. rewrite <- Heq in L'.
  destruct L as [Lp [Ll [Lt [Lf [Lmin Lmax]]]]].
  destruct L' as [Lp' [Ll' [Lt' [Lf' [Lmin' Lmax']]]]].
  rewrite Lp in Lp'. rewrite Ll in Ll'. rewrite Lt in Lt'.
  rewrite Lf in Lf'. rewrite Lmin in Lmin'. rewrite Lmax in Lmax'.
  injection Lp' as ->. injection Ll' as ->.
  apply type_entry_injective in Lt'.
  apply fraud_entry_injective in Lf' as [Hf1 Hf2].
  apply amount_entry_injective in Lmin' as [Hmin1 Hmin2].
  apply amount_entry_injective in Lmax' as [Hmax1 Hmax2].
  repeat split; trivial.
Qed.

(** X13: the search body tells the criteria: two selections that give the
    same body have the same type, the same kind of fraud entry, and the
    same minimum and maximum as far as these are strictly positive. *)
Theorem search_data_injective
    (search_type fraud_search search_type' fraud_search' : string)
    (amount_min_search amount_max_search : float)
    (amount_min_search' amount_max_search' : float) :
  search_data search_type fraud_search amount_min_search amount_max_search =
  search_data search_type' fraud_search' amount_min_search'
    amount_max_search' ->
  search_type = search_type' /\
  String.eqb fraud_search "Oui" = String.eqb fraud_search' "Oui" /\
  (String.eqb fraud_search "Oui" = false ->
   String.eqb fraud_search "Non" = String.eqb fraud_search' "Non") /\
  gt0 amount_min_search = gt0 amount_min_search' /\
  (gt0 amount_min_search = true -> amount_min_search = amount_min_search') /\
  gt0 amount_max_search = gt0 amount_max_search' /\
  (gt0 amount_max_search = true -> amount_max_search = amount_max_search').
Proof.
  intros Heq.
  pose proof (search_data_lookup search_type fraud_search
                amount_min_search amount_max_search) as L.
  pose proof (search_data_lookup search_type' fraud_search'
                amount_min_search' amount_max_search') as L'.
  cbv zeta in L, L'. rewrite <- Heq in L'.
  destruct L as [Lt [Lf Lr]]. destruct L' as [Lt' [Lf' Lr']].
  rewrite Lt in Lt'. rewrite Lf in Lf'. rewrite Lr in Lr'.
  apply type_entry_injective in Lt'.
  apply fraud_entry_injective in Lf' as [Hf1 Hf2].
  split; [exact Lt'|]. split; [exact Hf1|]. split; [exact Hf2|].
  destruct (gt0 amount_min_search), (gt0 amount_min_search'),
           (gt0 amount_max_search), (gt0 amount_max_search');
    simpl in Lr'; try discriminate Lr';
    try (injection Lr' as Hmin Hmax); try (injection Lr' as Hmin);
    repeat split; trivial; try discriminate; intros _; congruence.
Qed.

(** X14: the search body is empty exactly when no criterion is set: the
    type is "Tous", the fraud entry is neither "Oui" nor "Non", and neither
    amount is strictly positive.  The search is then posted with an empty
    object. *)
Theorem search_data_empty_iff (search_type fraud_search : string)
    (amount_min_search amount_max_search : float) :
  search_data search_type fraud_search amount_min_search amount_max_search
    = [] <->
  search_type = "Tous" /\ fraud_search <> "Oui" /\ fraud_search <> "Non" /\
  gt0 amount_min_search = false /\ gt0 amount_max_search = false.
Proof.
  unfold search_data.
  destruct (String.eqb_spec search_type "Tous") as [Ht|Ht],
           (String.eqb_spec fraud_search "Oui") as [Hy|Hy],
           (String.eqb_spec fraud_search "Non") as [Hn|Hn],
           (gt0 amount_min_search), (gt0 amount_max_search);
    simpl; split; try discriminate; intros H;
    try reflexivity; try (repeat split; trivial; fail);
    destruct H as [H1 [H2 [H3 [H4 H5]]]]; try discriminate;
    contradiction.
Qed.

(* ================================================================== *)
(** ** Number formatting *)

Lemma round_half_even_nearest (n d : Z) :
  0 < d ->
  2 * Z.abs (round_half_even n d * d - n) <= d /\
  (2 * Z.abs (round_half_even n d * d - n) = d ->
   Z.even (round_half_even n d) = true).
Proof.
  intros Hd. unfold round_half_even.
  pose proof (Z.div_mod n d ltac:(lia)) as Hdm.
  pose proof (Z.mod_pos_bound n d Hd) as Hr.
  set (q := n / d) in *. set (r := n mod d) in *.
  destruct (Z.ltb_spec (2 * r) d) as [Hlt|Hge].
  - split; [nia|]. intros H. exfalso. nia.
  - destruct (Z.ltb_spec d (2 * r)) as [Hgt|Hle].
    + split; [nia|]. intros H. exfalso. nia.
    + destruct (Z.even q) eqn:Hq.
      * split; [nia|]. intros _. exact Hq.
      * split; [nia|]. intros _. rewrite Z.even_add, Hq. reflexivity.
Qed.

Lemma round_half_even_nonneg (n d : Z) :
  0 <= n -> 0 < d -> 0 <= round_half_even n d.
Proof.
  intros Hn Hd. unfold round_half_even.
  pose proof (Z.div_pos n d Hn Hd) as Hq.
  destruct (2 * (n mod d) <? d); [exact Hq|].
  destruct (d <? 2 * (n mod d)); [lia|].
  destruct (Z.even (n / d)); lia.
Qed.

Lemma two_digits_length (k : Z) :
  0 <= k < 100 -> String.length (two_digits k) = 2%nat.
Proof.
  intros Hk.
  assert (Hall : forallb
                   (fun i => Nat.eqb (String.length (two_digits (Z.of_nat i))) 2)
                   (seq 0 100) = true) by (vm_compute; reflexivity).
  rewrite forallb_forall in Hall.
  specialize (Hall (Z.to_nat k)).
  rewrite Z2Nat.id in Hall by lia.
  apply Nat.eqb_eq, Hall, in_seq. lia.
Qed.

(** X20: for a finite number, the text of [format_number] is the sign, the
    integer part with its thousands separated, a point and exactly two
    decimals, for the hundredths nearest to the number: the amount shown
    is exact when the number is a multiple of a hundredth, and otherwise
    off by at most half a hundredth, a tie going to the even hundredth. *)
Theorem format_number_nearest_hundredth (num : float) (s : bool)
    (m : positive) (e : Z) :
  Prim2SF num = S754_finite s m e ->
  exists h : Z,
    0 <= h /\
    format_number num =
      sign_text s ++ group_thousands (string_of_Z (h / 100)) ++ "."
        ++ two_digits (h mod 100) /\
    String.length (two_digits (h mod 100)) = 2%nat /\
    (0 <= e -> h = Z.pos m * 2 ^ e * 100) /\
    (e < 0 ->
     2 * Z.abs (h * 2 ^ (- e) - Z.pos m * 100) <= 2 ^ (- e) /\
     (2 * Z.abs (h * 2 ^ (- e) - Z.pos m * 100) = 2 ^ (- e) ->
      Z.even h = true)).
Proof.
  intros Hnum. exists (hundredths m e).
  assert (Hpow : e < 0 -> 0 < 2 ^ (- e))
    by (intros He; apply Z.pow_pos_nonneg; lia).
  assert (Hh : 0 <= hundredths m e).
  { unfold hundredths. destruct (Z.leb_spec 0 e) as [He|He].
    - pose proof (Z.pow_nonneg 2 e ltac:(lia)). nia.
    - apply round_half_even_nonneg; [lia|now apply Hpow]. }
  split; [exact Hh|]. split; [|split; [|split]].
  - unfold format_number. rewrite Hnum. reflexivity.
  - apply two_digits_length. apply Z.mod_pos_bound. lia.
  - intros He. unfold hundredths.
    destruct (Z.leb_spec 0 e); [reflexivity|lia].
  - intros He. unfold hundredths.
    destruct (Z.leb_spec 0 e); [lia|].
    apply round_half_even_nearest. now apply Hpow.
Qed.

Lemma string_of_uint_digits (d : Decimal.uint) :
  forallb is_digit (list_ascii_of_string (NilEmpty.string_of_uint d)) = true.
Proof. induction d; simpl; trivial. Qed.

Lemma string_of_Z_digits (n : Z) :
  0 <= n -> forallb is_digit (list_ascii_of_string (string_of_Z n)) = true.
Proof.
  intros Hn. unfold string_of_Z. destruct n as [|p|p]; [reflexivity| |lia].
  simpl. unfold NilZero.string_of_uint.
  destruct (Pos.to_uint p) eqn:Hp; try reflexivity;
    rewrite <- Hp; apply string_of_uint_digits.
Qed.

Lemma digit_not_comma (c : ascii) : is_digit c = true -> is_comma c = false.
Proof.
  unfold is_digit, is_comma. destruct (Ascii.eqb_spec c ","%char) as [->|];
    [discriminate|reflexivity].
Qed.

Lemma string_length_list (s : string) :
  String.length s = List.length (list_ascii_of_string s).
Proof. induction s as [|c s IH]; simpl; [reflexivity|now rewrite IH]. Qed.

Section Grouping.

Local Open Scope nat_scope.
Local Open Scope list_scope.

Let keep (c : ascii) : bool := negb (is_comma c).

Lemma group_rev_cases (P : list ascii -> Prop) :
  P [] -> (forall a, P [a]) -> (forall a b, P [a; b]) ->
  (forall a b c, P [a; b; c]) ->
  (forall a b c d rest, P (d :: rest) -> P (a :: b :: c :: d :: rest)) ->
  forall l, P l.
Proof.
  intros H0 H1 H2 H3 H4 l.
  assert (H : forall n l, List.length l <= n -> P l).
  { induction n as [|n IH]; intros l' Hl.
    - destruct l'; [exact H0|simpl in Hl; lia].
    - destruct l' as [|a [|b [|c [|d rest]]]]; auto.
      apply H4, IH. simpl in *. lia. }
  apply (H (List.length l)). lia.
Qed.

Lemma group_rev_step (a b c d : ascii) (rest : list ascii) :
  group_rev (a :: b :: c :: d :: rest) =
    a :: b :: c :: ","%char :: group_rev (d :: rest).
Proof. reflexivity. Qed.

Lemma group_rev_filter (l : list ascii) :
  forallb is_digit l = true -> filter keep (group_rev l) = l.
Proof.
  assert (Hkeep : forall c, is_digit c = true -> keep c = true).
  { intros c Hc. unfold keep. now rewrite digit_not_comma. }
  induction l as [|a|a b|a b c|a b c d rest IH] using group_rev_cases;
    intros Hl.
  - reflexivity.
  - simpl in *. rewrite andb_true_r in Hl. now rewrite Hkeep.
  - simpl in *. apply andb_prop in Hl as [Ha Hb].
    rewrite andb_true_r in Hb. now rewrite !Hkeep.
  - simpl in *. apply andb_prop in Hl as [Ha Hl].
    apply andb_prop in Hl as [Hb Hc]. rewrite andb_true_r in Hc.
    now rewrite !Hkeep.
  - rewrite group_rev_step.
    change (forallb is_digit (a :: b :: c :: d :: rest)) with
      (is_digit a && (is_digit b && (is_digit c && forallb is_digit (d :: rest))))
      in Hl.
    apply andb_prop in Hl as [Ha Hl]. apply andb_prop in Hl as [Hb Hl].
    apply andb_prop in Hl as [Hc Hl].
    cbn [filter]. rewrite !Hkeep by assumption.
    change (keep ","%char) with false. cbv iota. now rewrite IH.
Qed.

Lemma group_rev_length (l : list ascii) :
  List.length (group_rev l) = List.length l + (List.length l - 1) / 3.
Proof.
  induction l as [|a|a b|a b c|a b c d rest IH] using group_rev_cases;
    try reflexivity.
  rewrite group_rev_step. cbn [List.length]. rewrite IH. cbn [List.length].
  replace (S (S (S (S (List.length rest)))) - 1)
    with (S (List.length rest) - 1 + 1 * 3) by lia.
  rewrite Nat.div_add by lia. lia.
Qed.

Lemma group_rev_commas (l : list ascii) :
  forallb is_digit l = true ->
  forall i : nat,
    nth_error (group_rev l) i = Some ","%char <->
    i mod 4 = 3 /\ i < List.length (group_rev l).
Proof.
  assert (Hdigit : forall c, is_digit c = true -> Some c <> Some ","%char).
  { intros c Hc H. injection H as ->. discriminate. }
  assert (Hsmall : forall (g : list ascii) (i : nat),
             forallb is_digit g = true -> List.length g <= 3 ->
             nth_error g i = Some ","%char <-> i mod 4 = 3 /\ i < List.length g).
  { intros g i Hg Hlen. split.
    - intros H. exfalso. apply nth_error_In in H.
      rewrite forallb_forall in Hg. apply Hg in H. discriminate.
    - intros [Hmod Hi]. exfalso.
      assert (Hi3 : i = 0 \/ i = 1 \/ i = 2) by lia.
      destruct Hi3 as [Hi3|[Hi3|Hi3]]; subst i; discriminate. }
  induction l as [|a|a b|a b c|a b c d rest IH] using group_rev_cases;
    intros Hl i; try (apply Hsmall; [exact Hl|simpl; lia]).
  rewrite group_rev_step.
  change (forallb is_digit (a :: b :: c :: d :: rest)) with
    (is_digit a && (is_digit b && (is_digit c && forallb is_digit (d :: rest))))
    in Hl.
  apply andb_prop in Hl as [Ha Hl]. apply andb_prop in Hl as [Hb Hl].
  apply andb_prop in Hl as [Hc Hl].
  destruct i as [|[|[|[|i]]]]; cbn [nth_error List.length].
  - split; [intros H; now apply Hdigit in H|intros [H _]; discriminate].
  - split; [intros H; now apply Hdigit in H|intros [H _]; discriminate].
  - split; [intros H; now apply Hdigit in H|intros [H _]; discriminate].
  - split; [intros _; split; [reflexivity|lia]|reflexivity].
  - rewrite (IH Hl i).
    replace (S (S (S (S i)))) with (i + 1 * 4) by lia.
    rewrite Nat.Div0.mod_add. split; intros [H1 H2]; split; trivial; lia.
Qed.

End Grouping.

(** X21: the thousands separator of [format_number].  For the decimal text
    of a natural number, the grouped text has a comma exactly at every
    fourth place counted from the right end (so the groups have three
    digits, but for the first, which has one to three), nothing else is
    added, and the text without its commas is the decimal text. *)
Theorem group_thousands_spec (n : Z) :
  0 <= n ->
  let digits := string_of_Z n in
  let grouped := group_thousands digits in
  remove_commas grouped = digits /\
  (forall i : nat,
     from_right grouped i = Some ","%char <->
     (i mod 4 = 3 /\ i < String.length grouped)%nat) /\
  String.length grouped =
    (String.length digits + (String.length digits - 1) / 3)%nat.
Proof.
  intros Hn digits grouped.
  pose proof (string_of_Z_digits n Hn) as Hdigits. fold digits in Hdigits.
  set (l := rev (list_ascii_of_string digits)).
  assert (Hl : forallb is_digit l = true).
  { apply forallb_forall. intros c Hc. apply in_rev in Hc.
    rewrite forallb_forall in Hdigits. now apply Hdigits. }
  assert (Hlist : list_ascii_of_string grouped = rev (group_rev l)).
  { unfold grouped, group_thousands.
    now rewrite list_ascii_of_string_of_list_ascii. }
  assert (Hlen : String.length grouped = List.length (group_rev l)).
  { now rewrite string_length_list, Hlist, length_rev. }
  split; [|split].
  - unfold remove_commas. rewrite Hlist.
    rewrite <- (rev_involutive (filter _ _)), <- filter_rev, rev_involutive.
    rewrite (group_rev_filter l Hl). unfold l.
    now rewrite rev_involutive, string_of_list_ascii_of_string.
  - intros i. unfold from_right. rewrite Hlist, rev_involutive, Hlen.
    apply (group_rev_commas l Hl).
  - rewrite Hlen, group_rev_length. unfold l.
    now rewrite length_rev, <- string_length_list.
Qed.

Lemma transactions_params_injective_run :
  transactions_params 2 25 "TRANSFER" "Frauduleuses" 250 0 =
  transactions_params 2 25 "TRANSFER" "Frauduleuses" 250 (-0) /\
  gt0 250 = true /\ gt0 0 = gt0 (-0).
Proof.
  assert (Heq : transactions_params 2 25 "TRANSFER" "Frauduleuses" 250 0 =
                transactions_params 2 25 "TRANSFER" "Frauduleuses" 250 (-0))
    by reflexivity.
  split; [exact Heq|].
  pose proof (transactions_params_injective _ _ _ _ _ _ _ _ _ _ _ _ Heq)
    as [_ [_ [_ [_ [_ [_ [_ [Hmax _]]]]]]]].
  split; [reflexivity|exact Hmax].
Defined.

Lemma search_data_injective_run :
  search_data "PAYMENT" "Non" 0 5000 = search_data "PAYMENT" "Non" (-0) 5000 /\
  gt0 0 = gt0 (-0) /\ gt0 5000 = true.
Proof.
  assert (Heq : search_data "PAYMENT" "Non" 0 5000 =
                search_data "PAYMENT" "Non" (-0) 5000) by reflexivity.
  split; [exact Heq|].
  pose proof (search_data_injective _ _ _ _ _ _ _ _ Heq)
    as [_ [_ [_ [Hmin _]]]].
  split; [exact Hmin|reflexivity].
Defined.

Lemma format_number_nearest_hundredth_run :
  Prim2SF 1234.5 = S754_finite false 5429388417957888 (-42) /\
  format_number 1234.5 = "1,234.50" /\
  exists h : Z,
    0 <= h /\
    format_number 1234.5 =
      sign_text false ++ group_thousands (string_of_Z (h / 100)) ++ "."
        ++ two_digits (h mod 100) /\
    String.length (two_digits (h mod 100)) = 2%nat /\
    (0 <= -42 -> h = 5429388417957888 * 2 ^ (-42) * 100) /\
    (-42 < 0 ->
     2 * Z.abs (h * 2 ^ (- -42) - 5429388417957888 * 100) <= 2 ^ (- -42) /\
     (2 * Z.abs (h * 2 ^ (- -42) - 5429388417957888 * 100) = 2 ^ (- -42) ->
      Z.even h = true)).
Proof.
  assert (Hnum : Prim2SF 1234.5 = S754_finite false 5429388417957888 (-42))
    by (vm_compute; reflexivity).
  split; [exact Hnum|]. split; [vm_compute; reflexivity|].
  exact (format_number_nearest_hundredth 1234.5 false 5429388417957888 (-42)
           Hnum).
Defined.

Lemma group_thousands_spec_million :
  0 <= 1234567 /\
  group_thousands (string_of_Z 1234567) = "1,234,567" /\
  remove_commas (group_thousands (string_of_Z 1234567)) = string_of_Z 1234567.
Proof.
  assert (Hn : 0 <= 1234567) by lia.
  split; [exact Hn|]. split; [reflexivity|].
  exact (proj1 (group_thousands_spec 1234567 Hn)).
Defined.

(* ================================================================== *)
(** ** The fraud prediction *)

Section ScriptFacts.

Context {A B : Type}.

Lemma script_bind_ret_l (a : A) (f : A -> Script B) :
  script_bind (script_ret a) f = f a.
Proof. unfold script_bind, script_ret. now destruct (f a). Qed.

Lemma script_bind_raise (e : script_exn) (f : A -> Script B) :
  script_bind (script_raise e) f = script_raise e.
Proof. reflexivity. Qed.

End ScriptFacts.

Lemma quiet_bind {A B : Type} (m : Script A) (f : A -> Script B) :
  quiet m -> (forall a, quiet (f a)) -> quiet (script_bind m f).
Proof.
  unfold quiet. intros Hm Hf. destruct m as [log [e|a]]; simpl in *;
    [exact Hm|].
  specialize (Hf a). destruct (f a) as [log' r]. simpl in *.
  now rewrite filter_app, Hm, Hf.
Qed.

Lemma quiet_for_each {A : Type} (items : list A) (body : A -> Script unit) :
  (forall x, quiet (body x)) -> quiet (for_each items body).
Proof.
  intros Hbody. induction items as [|x items IH]; [reflexivity|].
  simpl for_each. apply quiet_bind; [apply Hbody|intros _; exact IH].
Qed.

Lemma quiet_subscript (obj : json) (key : string) : quiet (subscript obj key).
Proof.
  destruct obj; try reflexivity. unfold quiet, subscript.
  now destruct (dict_get key items).
Qed.

Lemma quiet_check_percent (v : json) : quiet (check_percent v).
Proof.
  destruct v; try reflexivity. unfold quiet, check_percent.
  now destruct (Z.abs n <? 2 ^ 1024 - 2 ^ 970).
Qed.

Lemma quiet_iterate (obj : json) : quiet (iterate obj).
Proof. now destruct obj. Qed.

Lemma quiet_show_prediction (result : json) : quiet (show_prediction result).
Proof.
  unfold show_prediction. destruct (truthy result); [|reflexivity].
  apply quiet_bind; [apply quiet_subscript|intros is_fraud].
  apply quiet_bind; [now destruct (truthy is_fraud)|intros _].
  apply quiet_bind; [apply quiet_subscript|intros probability].
  apply quiet_bind; [apply quiet_check_percent|intros _].
  apply quiet_bind; [reflexivity|intros _].
  apply quiet_bind; [reflexivity|intros _].
  apply quiet_bind; [apply quiet_subscript|intros reasons].
  apply quiet_bind; [apply quiet_iterate|intros items].
  apply quiet_bind; [|reflexivity].
  apply quiet_for_each. reflexivity.
Qed.

Lemma for_each_write (prefix : string) (items : list json) :
  for_each items (fun x => script_emit (StWriteValue prefix x)) =
    (map (StWriteValue prefix) items, inr tt).
Proof.
  induction items as [|x items IH]; [reflexivity|].
  simpl for_each. rewrite IH. reflexivity.
Qed.

Lemma lift_requests {A : Type} (m : M A) :
  filter is_script_request (fst (lift m)) = map Core (requests_of m).
Proof.
  unfold requests_of, events.
  assert (Hmap : forall log : list event,
             filter is_script_request (map Core log) =
             map Core (filter is_request log)).
  { induction log as [|ev log IH]; [reflexivity|]. simpl.
    destruct (is_request ev); simpl; now rewrite IH. }
  destruct m as [log [e|a]]; apply Hmap.
Qed.

Section FraudPrediction.

Variable net : Network.
Variables (transaction_type : string).
Variables (amount oldbalance_org newbalance_orig : float).

Let body : json :=
  JDict [("type", JStr transaction_type); ("amount", JFloat amount);
         ("oldbalanceOrg", JFloat oldbalance_org);
         ("newbalanceOrig", JFloat newbalance_orig)].

Let call : M json := post_api_data net "fraud/predict" body.

Let run : Script unit :=
  fraud_prediction net transaction_type amount oldbalance_org newbalance_orig.

Lemma fraud_prediction_run (result : json) :
  outcome call = inr result ->
  run =
    let '(log, r) := show_prediction result in
    ((map Core (events call) ++ log)%list, r).
Proof.
  unfold run, fraud_prediction, prediction_data. fold body. fold call.
  destruct call as [log [e|v]]; simpl; [discriminate|].
  intros H. injection H as ->. reflexivity.
Qed.

(** X22: the action of the prediction makes exactly one request, whatever
    the network answers and whatever the page then does with the answer:
    the POST to [fraud/predict] of an object with the four fields [type],
    [amount], [oldbalanceOrg] and [newbalanceOrig], as they were entered
    (an amount of zero is sent as zero). *)
Theorem fraud_prediction_one_request :
  script_requests run =
    [Core (RequestsPost "http://localhost:8000/api/fraud/predict"
             (JDict [("type", JStr transaction_type);
                     ("amount", JFloat amount);
                     ("oldbalanceOrg", JFloat oldbalance_org);
                     ("newbalanceOrig", JFloat newbalance_orig)]))].
Proof.
  unfold script_requests, run, fraud_prediction, prediction_data.
  fold body. fold call.
  pose proof (lift_requests call) as Hcall.
  assert (Hone : requests_of call =
                 [RequestsPost "http://localhost:8000/api/fraud/predict" body]).
  { unfold call. rewrite post_api_data_run.
    now apply api_data_after_requests. }
  rewrite Hone in Hcall.
  destruct (lift call) as [log [e|result]] eqn:Hlift; simpl in *;
    [exact Hcall|].
  pose proof (quiet_show_prediction result) as Hquiet. unfold quiet in Hquiet.
  destruct (show_prediction result) as [log' r]. simpl in *.
  now rewrite filter_app, Hcall, Hquiet.
Qed.

(** X23: when the dispatcher returns an object with the entries [isFraud],
    [probability] (a number that a float can hold) and [reasons] (a list),
    the page shows, in this order: the alert when [isFraud] is true as a
    condition and the all-clear otherwise, the probability as a
    percentage, the heading of the reasons, one line for each reason in
    the order of the list, and the whole object; it ends normally. *)
Theorem fraud_prediction_shows (items : dict json)
    (is_fraud probability : json) (reasons : list json) :
  outcome call = inr (JDict items) ->
  dict_get "isFraud" items = Some is_fraud ->
  dict_get "probability" items = Some probability ->
  check_percent probability = script_ret tt ->
  dict_get "reasons" items = Some (JList reasons) ->
  run =
    ((map Core (events call)
      ++ [if truthy is_fraud
          then Core (StError (Text "⚠️ TRANSACTION SUSPECTE !"))
          else Core (StSuccess (Text "✅ Transaction normale"));
          StMetric "Probabilité de fraude" ".1%" probability;
          StMarkdown "**Raisons détectées :**"]
      ++ map (StWriteValue "• ") reasons
      ++ [Core (StJson (JDict items))])%list, inr tt).
Proof.
  intros Hcall Hfraud Hprob Hcheck Hreasons.
  rewrite (fraud_prediction_run _ Hcall). unfold show_prediction.
  assert (Htruthy : truthy (JDict items) = true)
    by (destruct items; [discriminate|reflexivity]).
  rewrite Htruthy. unfold subscript, iterate.
  rewrite Hfraud, Hprob, Hreasons.
  cbv beta iota zeta delta [script_bind script_emit script_ret].
  rewrite Hcheck. cbv beta iota zeta delta [script_ret].
  change (fun reason : json => ([StWriteValue "• " reason], inr tt))
    with (fun reason : json => script_emit (StWriteValue "• " reason)).
  rewrite for_each_write. reflexivity.
Qed.

(** X24: when the dispatcher returns a non-empty object without the entry
    [isFraud], the page shows nothing of it and the script ends with the
    [KeyError] of that entry. *)
Theorem fraud_prediction_without_verdict (items : dict json) :
  outcome call = inr (JDict items) ->
  items <> [] ->
  dict_get "isFraud" items = None ->
  run = (map Core (events call), inl (Raised (KeyError "isFraud"))).
Proof.
  intros Hcall Hitems Hfraud.
  rewrite (fraud_prediction_run _ Hcall). unfold show_prediction.
  assert (Htruthy : truthy (JDict items) = true)
    by (destruct items; [contradiction|reflexivity]).
  rewrite Htruthy. unfold subscript. rewrite Hfraud. simpl.
  now rewrite app_nil_r.
Qed.

(** X25: when the action ends normally after a result of the dispatcher
    that is true as a condition, that result is an object with the three
    entries [isFraud], [probability] and [reasons]; a result of any other
    shape ends the script with an exception. *)
Theorem fraud_prediction_completes_only_if_well_formed (result : json) :
  outcome call = inr result ->
  truthy result = true ->
  snd run = inr tt ->
  exists (items : dict json) (is_fraud probability reasons : json),
    result = JDict items /\
    dict_get "isFraud" items = Some is_fraud /\
    dict_get "probability" items = Some probability /\
    dict_get "reasons" items = Some reasons.
Proof.
  intros Hcall Htruthy.
  rewrite (fraud_prediction_run _ Hcall). unfold show_prediction.
  rewrite Htruthy.
  destruct result as [|b|n|x|s|l|items];
    try (simpl; intros H; discriminate H).
  unfold subscript.
  destruct (dict_get "isFraud" items) as [is_fraud|] eqn:Hfraud;
    [|simpl; intros H; discriminate H].
  destruct (dict_get "probability" items) as [probability|] eqn:Hprob.
  2:{ cbv beta iota zeta delta [script_bind script_emit script_ret
                                  script_raise].
      simpl. intros H. discriminate H. }
  destruct (dict_get "reasons" items) as [reasons|] eqn:Hreasons.
  - intros _. now exists items, is_fraud, probability, reasons.
  - cbv beta iota zeta delta [script_bind script_emit script_ret
                                script_raise].
    destruct (check_percent probability) as [log [e|[]]]; simpl;
      intros H; discriminate H.
Qed.

(** X26: when the dispatcher returns [None] (it has reported the failure)
    or an empty payload, the page shows nothing more and ends normally. *)
Theorem fraud_prediction_silent_without_result (result : json) :
  outcome call = inr result ->
  truthy result = false ->
  run = (map Core (events call), inr tt).
Proof.
  intros Hcall Hfalsy.
  rewrite (fraud_prediction_run _ Hcall). unfold show_prediction.
  rewrite Hfalsy. simpl. now rewrite app_nil_r.
Qed.

End FraudPrediction.

Lemma fraud_prediction_shows_alert :
  let answer :=
    "{" ++ quoted "isFraud" ++ ": true, " ++ quoted "probability"
    ++ ": 0.875, " ++ quoted "reasons" ++ ": [" ++ quoted "amount"
    ++ ", " ++ quoted "balance" ++ "]}" in
  let net := answering_network (backend_response 200 "OK" "fraud/predict" answer) in
  let items :=
    [("isFraud", JBool true); ("probability", JFloat 0.875);
     ("reasons", JList [JStr "amount"; JStr "balance"])] in
  json_loads answer = Some (JDict items) /\
  fraud_prediction net "TRANSFER" 9000 9000 0 =
    ([Core (RequestsPost "http://localhost:8000/api/fraud/predict"
              (JDict [("type", JStr "TRANSFER"); ("amount", JFloat 9000);
                      ("oldbalanceOrg", JFloat 9000);
                      ("newbalanceOrig", JFloat 0)]));
      Core (StError (Text "⚠️ TRANSACTION SUSPECTE !"));
      StMetric "Probabilité de fraude" ".1%" (JFloat 0.875);
      StMarkdown "**Raisons détectées :**";
      StWriteValue "• " (JStr "amount");
      StWriteValue "• " (JStr "balance");
      Core (StJson (JDict items))], inr tt).
Proof.
  intros answer net items. split; [vm_compute; reflexivity|].
  rewrite (fraud_prediction_shows net "TRANSFER" 9000 9000 0 items
             (JBool true) (JFloat 0.875) [JStr "amount"; JStr "balance"]);
    reflexivity.
Defined.

Lemma fraud_prediction_without_verdict_run :
  let answer := "{" ++ quoted "probability" ++ ": 1}" in
  let net := answering_network (backend_response 200 "OK" "fraud/predict" answer) in
  json_loads answer = Some (JDict [("probability", JInt 1)]) /\
  fraud_prediction net "PAYMENT" 1000 5000 4000 =
    ([Core (RequestsPost "http://localhost:8000/api/fraud/predict"
              (JDict [("type", JStr "PAYMENT"); ("amount", JFloat 1000);
                      ("oldbalanceOrg", JFloat 5000);
                      ("newbalanceOrig", JFloat 4000)]))],
     inl (Raised (KeyError "isFraud"))).
Proof.
  intros answer net. split; [reflexivity|].
  rewrite (fraud_prediction_without_verdict net "PAYMENT" 1000 5000 4000
             [("probability", JInt 1)]);
    [reflexivity|reflexivity|discriminate|reflexivity].
Defined.

Lemma fraud_prediction_completes_run :
  let answer :=
    "{" ++ quoted "isFraud" ++ ": false, " ++ quoted "probability"
    ++ ": 0, " ++ quoted "reasons" ++ ": []}" in
  let net := answering_network (backend_response 200 "OK" "fraud/predict" answer) in
  snd (fraud_prediction net "DEBIT" 10 20 10) = inr tt /\
  exists (items : dict json) (is_fraud probability reasons : json),
    JDict [("isFraud", JBool false); ("probability", JInt 0);
           ("reasons", JList [])] = JDict items /\
    dict_get "isFraud" items = Some is_fraud /\
    dict_get "probability" items = Some probability /\
    dict_get "reasons" items = Some reasons.
Proof.
  intros answer net.
  assert (Hrun : snd (fraud_prediction net "DEBIT" 10 20 10) = inr tt)
    by reflexivity.
  split; [exact Hrun|].
  exact (fraud_prediction_completes_only_if_well_formed net "DEBIT" 10 20 10
           (JDict [("isFraud", JBool false); ("probability", JInt 0);
                   ("reasons", JList [])]) eq_refl eq_refl Hrun).
Defined.

Lemma fraud_prediction_silent_after_failure :
  let e := ConnectionError "Connection refused" in
  let net := failing_network e in
  fraud_prediction net "CASH_OUT" 100 100 0 =
    ([Core (RequestsPost "http://localhost:8000/api/fraud/predict"
              (JDict [("type", JStr "CASH_OUT"); ("amount", JFloat 100);
                      ("oldbalanceOrg", JFloat 100);
                      ("newbalanceOrig", JFloat 0)]));
      Core (StError (TextExn "❌ Erreur API: " e))], inr tt).
Proof.
  intros e net.
  rewrite (fraud_prediction_silent_without_result net "CASH_OUT" 100 100 0
             JNull); reflexivity.
Defined.
